(** * Coders of the Beam Python SDK (apache_beam/coders/coders.py)

    A shallow embedding of the coder class hierarchy: every concrete coder
    class is a constructor of [Coder], every method is a function on [Coder],
    and a Python exception is a [Raise] result.  The modules the file imports
    but that are not part of it (cPickle, dill, the SDK's pickler, coder_impl,
    the varint size function, the builtin str) are the fields of a [Runtime]
    record that the methods take as a parameter.  The text codecs the direct
    coders call (UTF-8, base64) are modelled concretely. *)

From Stdlib Require Import NArith ZArith List String Ascii Bool Lia.
Import ListNotations.

Ltac Zify.zify_post_hook ::= Z.to_euclidean_division_equations.

(** Induction on a type that is nested in [list] gets its hypothesis for the
    elements of the list. *)
Scheme All for list.
Scheme All for option.

(** ** Python results and values *)

(** The exception classes raised in coders.py, and [OtherError] for the ones
    that belong to an imported module (a pickling error, say). *)
Inductive PyError : Type :=
| NotImplementedError
| ValueError
| IndexError
| AttributeError
| TypeError
| UnicodeDecodeError
| OtherError (name : string).

Inductive result (A : Type) : Type :=
| Ok (a : A)
| Raise (e : PyError).

Arguments Ok {A} a.
Arguments Raise {A} e.

Definition bind {A B : Type} (r : result A) (k : A -> result B) : result B :=
  match r with
  | Ok a => k a
  | Raise e => Raise e
  end.

Notation "x <- r ;; k" := (bind r (fun x => k))
  (at level 61, r at next level, right associativity).

(** Evaluates a list of computations in order and stops at the first one that
    raises, as [list(f(x) for x in xs)] does. *)
Fixpoint sequence {A : Type} (rs : list (result A)) : result (list A) :=
  match rs with
  | [] => Ok []
  | r :: rs' => a <- r ;; l <- sequence rs' ;; Ok (a :: l)
  end.

(** A Python 2 [str] is a byte string: [string], one [ascii] per byte. *)
Definition str_bytes (s : string) : list N :=
  map N_of_ascii (list_ascii_of_string s).

Definition bytes_str (l : list N) : string :=
  string_of_list_ascii (map ascii_of_N l).

Definition len (s : string) : Z := Z.of_nat (String.length s).

Definition is_ascii (s : string) : bool :=
  forallb (fun b => (b <? 128)%N) (str_bytes s).

(** The values handed to coders.  [PyUnicode u] is a unicode object, given by
    its code points; [GlobalWindow] is the value [window.GlobalWindow()] that
    [GlobalWindowCoder] stores. *)
Inductive PyVal : Type :=
| PyNone
| PyInt (n : Z)
| PyStr (s : string)
| PyUnicode (u : list N)
| PyTuple (items : list PyVal)
| GlobalWindow.

Fixpoint list_eqb {A : Type} (eqb : A -> A -> bool) (l1 l2 : list A) : bool :=
  match l1, l2 with
  | [], [] => true
  | x :: t1, y :: t2 => eqb x y && list_eqb eqb t1 t2
  | _, _ => false
  end.

(** Python's [==] on these values.  In Python 2 a [str] equals a [unicode]
    when it is ASCII and has the same characters. *)
Fixpoint py_eq (v w : PyVal) {struct v} : bool :=
  match v, w with
  | PyNone, PyNone => true
  | PyInt n, PyInt m => Z.eqb n m
  | PyStr s, PyStr t => String.eqb s t
  | PyUnicode u, PyUnicode u' => list_eqb N.eqb u u'
  | PyStr s, PyUnicode u | PyUnicode u, PyStr s =>
    is_ascii s && list_eqb N.eqb (str_bytes s) u
  | PyTuple l, PyTuple l' =>
    (fix items_eq (l1 l2 : list PyVal) : bool :=
       match l1, l2 with
       | [], [] => true
       | x :: t1, y :: t2 => py_eq x y && items_eq t1 t2
       | _, _ => false
       end) l l'
  | GlobalWindow, GlobalWindow => true
  | _, _ => false
  end.

(** ** The 'utf-8' codec of [unicode.encode] and [str.decode] *)

Module Utf8.
Local Open Scope N_scope.

(** The code points a unicode string is made of, on every build of the
    interpreter: the Unicode scalar values. *)
Definition scalar (ch : N) : bool :=
  (ch <? 0xD800) || ((0xDFFF <? ch) && (ch <? 0x110000)).

Definition encode_char (ch : N) : list N :=
  if ch <? 0x80 then [ch]
  else if ch <? 0x800 then
    [N.lor 0xC0 (N.shiftr ch 6); N.lor 0x80 (N.land ch 0x3F)]
  else if ch <? 0x10000 then
    [N.lor 0xE0 (N.shiftr ch 12); N.lor 0x80 (N.land (N.shiftr ch 6) 0x3F);
     N.lor 0x80 (N.land ch 0x3F)]
  else
    [N.lor 0xF0 (N.shiftr ch 18); N.lor 0x80 (N.land (N.shiftr ch 12) 0x3F);
     N.lor 0x80 (N.land (N.shiftr ch 6) 0x3F); N.lor 0x80 (N.land ch 0x3F)].

Definition encode_bytes (u : list N) : list N := flat_map encode_char u.

Definition is_cont (b : N) : bool := N.land b 0xC0 =? 0x80.

(** Decodes the sequence that starts with the lead byte [b0], then the rest
    with [rec]: lead bytes C0, C1 and F5..FF, a missing or wrong continuation
    byte, an overlong form and a code point above 10FFFF are errors. *)
Definition decode_seq (rec : list N -> option (list N)) (b0 : N) (t0 : list N)
  : option (list N) :=
  if b0 <? 0x80 then option_map (cons b0) (rec t0)
  else if b0 <? 0xC2 then None
  else if b0 <? 0xE0 then
    match t0 with
    | b1 :: t1 =>
      if is_cont b1
      then option_map (cons (N.shiftl (N.land b0 0x1F) 6 + N.land b1 0x3F)) (rec t1)
      else None
    | _ => None
    end
  else if b0 <? 0xF0 then
    match t0 with
    | b1 :: b2 :: t2 =>
      if is_cont b1 && is_cont b2 && negb ((b0 =? 0xE0) && (b1 <? 0xA0))
      then option_map
             (cons (N.shiftl (N.land b0 0x0F) 12 + N.shiftl (N.land b1 0x3F) 6
                    + N.land b2 0x3F))
             (rec t2)
      else None
    | _ => None
    end
  else if b0 <? 0xF5 then
    match t0 with
    | b1 :: b2 :: b3 :: t3 =>
      if is_cont b1 && is_cont b2 && is_cont b3
         && negb ((b0 =? 0xF0) && (b1 <? 0x90))
         && negb ((b0 =? 0xF4) && (0x8F <? b1))
      then option_map
             (cons (N.shiftl (N.land b0 0x07) 18 + N.shiftl (N.land b1 0x3F) 12
                    + N.shiftl (N.land b2 0x3F) 6 + N.land b3 0x3F))
             (rec t3)
      else None
    | _ => None
    end
  else None.

Fixpoint decode_bytes (s : list N) : option (list N) :=
  match s with
  | [] => Some []
  | b0 :: t0 => decode_seq decode_bytes b0 t0
  end.

(** [u.encode('utf-8')] and [s.decode('utf-8')]. *)
Definition encode (u : list N) : string := bytes_str (encode_bytes u).
Definition decode (s : string) : option (list N) := decode_bytes (str_bytes s).

End Utf8.

(** ** [base64.b64encode] and [base64.b64decode] *)

Module Base64.
Local Open Scope N_scope.

Definition alphabet : string :=
  "ABCDEFGHIJKLMNOPQRSTUVWXYZabcdefghijklmnopqrstuvwxyz0123456789+/".

Definition pad : ascii := "="%char.

Definition char_of (n : N) : ascii :=
  match String.get (N.to_nat n) alphabet with
  | Some c => c
  | None => pad
  end.

Definition index_of (c : ascii) : option N :=
  let n := N_of_ascii c in
  if (65 <=? n) && (n <=? 90) then Some (n - 65)
  else if (97 <=? n) && (n <=? 122) then Some (n - 71)
  else if (48 <=? n) && (n <=? 57) then Some (n + 4)
  else if n =? 43 then Some 62
  else if n =? 47 then Some 63
  else None.

(** Three bytes give four characters; a last group of one or two bytes is
    padded with '='. *)
Fixpoint encode_bytes (s : list N) : list ascii :=
  match s with
  | [] => []
  | [a] =>
    [char_of (N.shiftr a 2); char_of (N.shiftl (N.land a 3) 4); pad; pad]
  | [a; b] =>
    [char_of (N.shiftr a 2);
     char_of (N.lor (N.shiftl (N.land a 3) 4) (N.shiftr b 4));
     char_of (N.shiftl (N.land b 15) 2); pad]
  | a :: b :: c :: t =>
    char_of (N.shiftr a 2)
    :: char_of (N.lor (N.shiftl (N.land a 3) 4) (N.shiftr b 4))
    :: char_of (N.lor (N.shiftl (N.land b 15) 2) (N.shiftr c 6))
    :: char_of (N.land c 63)
    :: encode_bytes t
  end.

Definition byte0 (s0 s1 : N) : N := N.lor (N.shiftl s0 2) (N.shiftr s1 4).
Definition byte1 (s1 s2 : N) : N :=
  N.lor (N.shiftl (N.land s1 15) 4) (N.shiftr s2 2).
Definition byte2 (s2 s3 : N) : N := N.lor (N.shiftl (N.land s2 3) 6) s3.

(** The decoder of the padded form: groups of four characters of the
    alphabet, padding only in the last group.  Anything else is an error
    (binascii skips some characters outside the alphabet instead; no output of
    [encode_bytes] has one). *)
Fixpoint decode_chars (s : list ascii) : option (list N) :=
  match s with
  | [] => Some []
  | c0 :: c1 :: c2 :: c3 :: t =>
    match index_of c0, index_of c1 with
    | Some s0, Some s1 =>
      if Ascii.eqb c2 pad then
        match Ascii.eqb c3 pad, t with
        | true, [] => Some [byte0 s0 s1]
        | _, _ => None
        end
      else
        match index_of c2 with
        | Some s2 =>
          if Ascii.eqb c3 pad then
            match t with
            | [] => Some [byte0 s0 s1; byte1 s1 s2]
            | _ => None
            end
          else
            match index_of c3 with
            | Some s3 =>
              option_map (fun l => byte0 s0 s1 :: byte1 s1 s2 :: byte2 s2 s3 :: l)
                         (decode_chars t)
            | None => None
            end
        | None => None
        end
    | _, _ => None
    end
  | _ => None
  end.

Definition b64encode (s : string) : string :=
  string_of_list_ascii (encode_bytes (str_bytes s)).

Definition b64decode (s : string) : option string :=
  option_map bytes_str (decode_chars (list_ascii_of_string s)).

End Base64.

(** ** The coder classes *)

(** One constructor per concrete class of coders.py, with the attributes that
    [__init__] stores.  The abstract bases [Coder], [FastCoder] and
    [_PickleCoderBase] appear as the shared method bodies below.  The cached
    [_impl] attribute is derived state ([get_impl] recomputes it) and is left
    out, as [_dict_without_impl] leaves it out. *)
Inductive Coder : Type :=
| StrUtf8Coder
| ToStringCoder
| BytesCoder
| VarIntCoder
| FloatCoder
| TimestampCoder
| SingletonCoder (_value : PyVal)
| PickleCoder
| DillCoder
| DeterministicFastPrimitivesCoder (_underlying_coder : Coder) (_step_label : string)
| FastPrimitivesCoder (_fallback_coder : Coder)
| Base64PickleCoder
| ProtoCoder (proto_message_type : string)
| TupleCoder (_coders : list Coder)
| TupleSequenceCoder (_elem_coder : Coder)
| IterableCoder (_elem_coder : Coder)
| GlobalWindowCoder
| IntervalWindowCoder
| WindowedValueCoder (wrapped_value_coder timestamp_coder window_coder : Coder)
| LengthPrefixCoder (_value_coder : Coder).

(** [WindowedValueCoder.__init__(wrapped_value_coder, window_coder=None)]. *)
Definition WindowedValueCoder__init__ (wrapped_value_coder : Coder)
  (window_coder : option Coder) : Coder :=
  WindowedValueCoder wrapped_value_coder TimestampCoder
    (match window_coder with
     | Some w => w
     | None => PickleCoder
     end).

(** [FastPrimitivesCoder.__init__(fallback_coder=PickleCoder())]. *)
Definition FastPrimitivesCoder__init__ (fallback_coder : option Coder) : Coder :=
  FastPrimitivesCoder
    (match fallback_coder with
     | Some f => f
     | None => PickleCoder
     end).

(** [self.__class__.__name__]. *)
Definition class_name (c : Coder) : string :=
  match c with
  | StrUtf8Coder => "StrUtf8Coder"
  | ToStringCoder => "ToStringCoder"
  | BytesCoder => "BytesCoder"
  | VarIntCoder => "VarIntCoder"
  | FloatCoder => "FloatCoder"
  | TimestampCoder => "TimestampCoder"
  | SingletonCoder _ => "SingletonCoder"
  | PickleCoder => "PickleCoder"
  | DillCoder => "DillCoder"
  | DeterministicFastPrimitivesCoder _ _ => "DeterministicFastPrimitivesCoder"
  | FastPrimitivesCoder _ => "FastPrimitivesCoder"
  | Base64PickleCoder => "Base64PickleCoder"
  | ProtoCoder _ => "ProtoCoder"
  | TupleCoder _ => "TupleCoder"
  | TupleSequenceCoder _ => "TupleSequenceCoder"
  | IterableCoder _ => "IterableCoder"
  | GlobalWindowCoder => "GlobalWindowCoder"
  | IntervalWindowCoder => "IntervalWindowCoder"
  | WindowedValueCoder _ _ _ => "WindowedValueCoder"
  | LengthPrefixCoder _ => "LengthPrefixCoder"
  end.

(** [type(self) == type(other)]: classes are equal when their names are. *)
Definition same_class (a b : Coder) : bool :=
  String.eqb (class_name a) (class_name b).

(** *** Determinism *)

Fixpoint is_deterministic (c : Coder) : bool :=
  match c with
  | StrUtf8Coder | ToStringCoder => true
  | BytesCoder | VarIntCoder | FloatCoder | TimestampCoder => true
  | SingletonCoder _ | GlobalWindowCoder => true
  | PickleCoder | DillCoder => false
  | DeterministicFastPrimitivesCoder _ _ => true
  | FastPrimitivesCoder fallback => is_deterministic fallback
  | Base64PickleCoder => false
  | ProtoCoder _ => false
  | TupleCoder coders => forallb is_deterministic coders
  | TupleSequenceCoder elem => is_deterministic elem
  | IterableCoder elem => is_deterministic elem
  | IntervalWindowCoder => true
  | WindowedValueCoder wrapped timestamp window =>
    forallb is_deterministic [wrapped; timestamp; window]
  | LengthPrefixCoder value => is_deterministic value
  end.

(** *** Component coders *)

Definition _get_component_coders (c : Coder) : list Coder :=
  match c with
  | TupleCoder coders => coders
  | TupleSequenceCoder elem => [elem]
  | IterableCoder elem => [elem]
  | WindowedValueCoder wrapped _ window => [wrapped; window]
  | LengthPrefixCoder value => [value]
  | _ => []
  end.

(** *** The key/value view *)

Fixpoint is_kv_coder (c : Coder) : bool :=
  match c with
  | PickleCoder | DillCoder => true
  | DeterministicFastPrimitivesCoder _ _ => true
  | FastPrimitivesCoder _ => true
  | Base64PickleCoder => true
  | TupleCoder coders => Nat.eqb (List.length coders) 2
  | WindowedValueCoder wrapped _ _ => is_kv_coder wrapped
  | _ => false
  end.

(** [Coder.key_coder] and [Coder.value_coder], for the classes that do not
    override them. *)
Definition Coder_key_coder (self : Coder) : result Coder :=
  if is_kv_coder self then Raise NotImplementedError else Raise ValueError.

Definition Coder_value_coder (self : Coder) : result Coder :=
  if is_kv_coder self then Raise NotImplementedError else Raise ValueError.

(** [self._coders[i]]. *)
Definition getitem (coders : list Coder) (i : nat) : result Coder :=
  match nth_error coders i with
  | Some c => Ok c
  | None => Raise IndexError
  end.

Fixpoint key_coder (c : Coder) : result Coder :=
  match c with
  | PickleCoder | DillCoder => Ok c
  | DeterministicFastPrimitivesCoder _ _ => Ok c
  | FastPrimitivesCoder _ => Ok c
  | Base64PickleCoder => Ok c
  | TupleCoder coders =>
    if negb (Nat.eqb (List.length coders) 2) then Raise ValueError
    else getitem coders 0
  | WindowedValueCoder wrapped _ _ => key_coder wrapped
  | _ => Coder_key_coder c
  end.

Fixpoint value_coder (c : Coder) : result Coder :=
  match c with
  | PickleCoder | DillCoder => Ok c
  | DeterministicFastPrimitivesCoder _ _ => Ok c
  | FastPrimitivesCoder _ => Ok c
  | Base64PickleCoder => Ok c
  | TupleCoder coders =>
    if negb (Nat.eqb (List.length coders) 2) then Raise ValueError
    else getitem coders 1
  | IterableCoder elem => Ok elem
  | WindowedValueCoder wrapped _ _ => value_coder wrapped
  | LengthPrefixCoder value => Ok value
  | _ => Coder_value_coder c
  end.

(** *** Equality *)

(** [a == b], by the [__eq__] of [a]'s class.  [Coder.__eq__] compares the
    class and the attribute dictionaries (empty for the classes without
    attributes); the overriding methods are transcribed as written, with the
    operands each one names. *)
Fixpoint __eq__ (self other : Coder) {struct self} : bool :=
  match self with
  | StrUtf8Coder | ToStringCoder | Base64PickleCoder =>
    same_class self other
  | DeterministicFastPrimitivesCoder u l =>
    match other with
    | DeterministicFastPrimitivesCoder u' l' => __eq__ u u' && String.eqb l l'
    | _ => false
    end
  | BytesCoder | VarIntCoder | FloatCoder | TimestampCoder
  | PickleCoder | DillCoder | FastPrimitivesCoder _ | IntervalWindowCoder =>
    same_class self other
  | SingletonCoder v =>
    match other with
    | SingletonCoder v' => py_eq v v'
    | _ => false
    end
  | GlobalWindowCoder =>
    match other with
    | GlobalWindowCoder => py_eq GlobalWindow GlobalWindow
    | _ => false
    end
  | ProtoCoder t =>
    match other with
    | ProtoCoder t' => String.eqb t t'
    | _ => false
    end
  | TupleCoder coders =>
    same_class self other
    && (fix tuple_eq (l1 l2 : list Coder) : bool :=
          match l1, l2 with
          | [], [] => true
          | x :: t1, y :: t2 => __eq__ x y && tuple_eq t1 t2
          | _, _ => false
          end) coders coders
  | TupleSequenceCoder elem => same_class self other && __eq__ elem elem
  | IterableCoder elem => same_class self other && __eq__ elem elem
  | WindowedValueCoder wrapped timestamp window =>
    match other with
    | WindowedValueCoder wrapped' timestamp' window' =>
      __eq__ wrapped wrapped' && __eq__ timestamp timestamp'
      && __eq__ window window'
    | _ => false
    end
  | LengthPrefixCoder value =>
    match other with
    | LengthPrefixCoder value' => __eq__ value value'
    | _ => false
    end
  end.

(** ** The imported modules *)

(** An object serializer with [dumps] and [loads]: cPickle, dill. *)
Record ObjectSerializer : Type := {
  dumps : PyVal -> result string;
  loads : string -> result PyVal
}.

(** What [pickler.loads] may return: any object, a coder among them. *)
Inductive PyObject : Type :=
| ObjCoder (c : Coder)
| ObjValue (v : PyVal).

(** apache_beam.internal.pickler, applied to coders by [serialize_coder]. *)
Record CoderPickler : Type := {
  pickler_dumps : Coder -> result string;
  pickler_loads : string -> result PyObject
}.

(** A [coder_impl.CoderImpl]: the handle a [FastCoder] forwards to. *)
Record CoderImpl : Type := {
  impl_encode : PyVal -> result string;
  impl_decode : string -> result PyVal;
  impl_estimate_size : PyVal -> result Z
}.

(** The constructors of apache_beam.coders.coder_impl that coders.py calls. *)
Record CoderImplModule : Type := {
  CallbackCoderImpl :
    (PyVal -> result string) -> (string -> result PyVal)
    -> option (PyVal -> result Z) -> CoderImpl;
  BytesCoderImpl : CoderImpl;
  VarIntCoderImpl : CoderImpl;
  FloatCoderImpl : CoderImpl;
  TimestampCoderImpl : CoderImpl;
  SingletonCoderImpl : PyVal -> CoderImpl;
  DeterministicFastPrimitivesCoderImpl : CoderImpl -> string -> CoderImpl;
  FastPrimitivesCoderImpl : CoderImpl -> CoderImpl;
  ProtoCoderImpl : string -> CoderImpl;
  TupleCoderImpl : list CoderImpl -> CoderImpl;
  TupleSequenceCoderImpl : CoderImpl -> CoderImpl;
  IterableCoderImpl : CoderImpl -> CoderImpl;
  IntervalWindowCoderImpl : CoderImpl;
  WindowedValueCoderImpl : CoderImpl -> CoderImpl -> CoderImpl -> CoderImpl;
  LengthPrefixCoderImpl : Coder -> CoderImpl
}.

Record Runtime : Type := {
  pickle : ObjectSerializer;
  dill : ObjectSerializer;
  pickler : CoderPickler;
  coder_impl : CoderImplModule;
  get_varint_size : Z -> result Z;
  builtin_str : PyVal -> string
}.

(** The dictionary [as_cloud_object] returns: the '@type' entry, the flags
    (absent keys are [None]) and the 'component_encodings' entry. *)
Inductive CloudObject : Type :=
| cloud_object (type : string) (is_pair_like is_stream_like is_wrapper : option bool)
    (component_encodings : option (list CloudObject)).

Definition cloud_type (o : CloudObject) : string :=
  match o with cloud_object t _ _ _ _ => t end.
Definition cloud_is_pair_like (o : CloudObject) : option bool :=
  match o with cloud_object _ p _ _ _ => p end.
Definition cloud_is_stream_like (o : CloudObject) : option bool :=
  match o with cloud_object _ _ s _ _ => s end.
Definition cloud_is_wrapper (o : CloudObject) : option bool :=
  match o with cloud_object _ _ _ w _ => w end.
Definition cloud_component_encodings (o : CloudObject) : option (list CloudObject) :=
  match o with cloud_object _ _ _ _ e => e end.

(** ** Encoding, decoding and the interchange layer *)

Section Coders.

Variable rt : Runtime.

Definition maybe_dill_dumps (o : PyVal) : result string :=
  match dumps (pickle rt) o with
  | Ok s => Ok s
  | Raise _ => dumps (dill rt) o
  end.

Definition maybe_dill_loads (o : string) : result PyVal :=
  match loads (pickle rt) o with
  | Ok v => Ok v
  | Raise _ => loads (dill rt) o
  end.

(** *** The direct coders *)

(** [value.encode('utf-8')]: a [str] is first decoded as ASCII. *)
Definition StrUtf8Coder_encode (value : PyVal) : result string :=
  match value with
  | PyUnicode u => Ok (Utf8.encode u)
  | PyStr s => if is_ascii s then Ok s else Raise UnicodeDecodeError
  | _ => Raise AttributeError
  end.

Definition StrUtf8Coder_decode (value : string) : result PyVal :=
  match Utf8.decode value with
  | Some u => Ok (PyUnicode u)
  | None => Raise UnicodeDecodeError
  end.

Definition ToStringCoder_encode (value : PyVal) : result string :=
  match value with
  | PyUnicode u => Ok (Utf8.encode u)
  | PyStr s => Ok s
  | _ => Ok (builtin_str rt value)
  end.

Definition ToStringCoder_decode (_ : string) : result PyVal :=
  Raise NotImplementedError.

Definition Base64PickleCoder_encode (value : PyVal) : result string :=
  p <- dumps (pickle rt) value ;; Ok (Base64.b64encode p).

Definition Base64PickleCoder_decode (encoded : string) : result PyVal :=
  match Base64.b64decode encoded with
  | Some p => loads (pickle rt) p
  | None => Raise TypeError
  end.

(** [Coder.estimate_size]: the length of the encoding. *)
Definition Coder_estimate_size (encode : PyVal -> result string) (value : PyVal)
  : result Z :=
  b <- encode value ;; Ok (len b).

(** [Coder._create_impl], for a class with [encode] and [decode] of its own. *)
Definition Coder_create_impl (encode : PyVal -> result string)
  (decode : string -> result PyVal) : CoderImpl :=
  CallbackCoderImpl (coder_impl rt) encode decode
    (Some (Coder_estimate_size encode)).

(** *** The implementation handle *)

Fixpoint _create_impl (c : Coder) : CoderImpl :=
  let m := coder_impl rt in
  match c with
  | StrUtf8Coder => Coder_create_impl StrUtf8Coder_encode StrUtf8Coder_decode
  | ToStringCoder => Coder_create_impl ToStringCoder_encode ToStringCoder_decode
  | Base64PickleCoder =>
    Coder_create_impl Base64PickleCoder_encode Base64PickleCoder_decode
  | BytesCoder => BytesCoderImpl m
  | VarIntCoder => VarIntCoderImpl m
  | FloatCoder => FloatCoderImpl m
  | TimestampCoder => TimestampCoderImpl m
  | SingletonCoder v => SingletonCoderImpl m v
  | GlobalWindowCoder => SingletonCoderImpl m GlobalWindow
  | PickleCoder =>
    CallbackCoderImpl m (dumps (pickle rt)) (loads (pickle rt)) None
  | DillCoder => CallbackCoderImpl m maybe_dill_dumps maybe_dill_loads None
  | DeterministicFastPrimitivesCoder u label =>
    DeterministicFastPrimitivesCoderImpl m (_create_impl u) label
  | FastPrimitivesCoder fallback => FastPrimitivesCoderImpl m (_create_impl fallback)
  | ProtoCoder t => ProtoCoderImpl m t
  | TupleCoder coders => TupleCoderImpl m (map _create_impl coders)
  | TupleSequenceCoder elem => TupleSequenceCoderImpl m (_create_impl elem)
  | IterableCoder elem => IterableCoderImpl m (_create_impl elem)
  | IntervalWindowCoder => IntervalWindowCoderImpl m
  | WindowedValueCoder wrapped timestamp window =>
    WindowedValueCoderImpl m (_create_impl wrapped) (_create_impl timestamp)
      (_create_impl window)
  | LengthPrefixCoder value => LengthPrefixCoderImpl m value
  end.

(** [get_impl] caches the handle in [self._impl]; the handle is a function of
    the coder, so the cache is not modelled. *)
Definition get_impl (c : Coder) : CoderImpl := _create_impl c.

(** *** encode, decode, estimate_size *)

Definition encode (c : Coder) (value : PyVal) : result string :=
  match c with
  | StrUtf8Coder => StrUtf8Coder_encode value
  | ToStringCoder => ToStringCoder_encode value
  | Base64PickleCoder => Base64PickleCoder_encode value
  | _ => impl_encode (get_impl c) value
  end.

Definition decode (c : Coder) (encoded : string) : result PyVal :=
  match c with
  | StrUtf8Coder => StrUtf8Coder_decode encoded
  | ToStringCoder => ToStringCoder_decode encoded
  | Base64PickleCoder => Base64PickleCoder_decode encoded
  | _ => impl_decode (get_impl c) encoded
  end.

Fixpoint estimate_size (c : Coder) (value : PyVal) : result Z :=
  match c with
  | StrUtf8Coder => Coder_estimate_size StrUtf8Coder_encode value
  | ToStringCoder => Coder_estimate_size ToStringCoder_encode value
  | Base64PickleCoder => Coder_estimate_size Base64PickleCoder_encode value
  | LengthPrefixCoder inner =>
    value_size <- estimate_size inner value ;;
    prefix <- get_varint_size rt value_size ;;
    Ok (prefix + value_size)%Z
  | _ => impl_estimate_size (get_impl c) value
  end.

(** The classes whose [encode], [decode] and [estimate_size] are the ones of
    [FastCoder], which forward to the handle. *)
Definition delegating (c : Coder) : bool :=
  match c with
  | StrUtf8Coder | ToStringCoder | Base64PickleCoder => false
  | _ => true
  end.

(** *** Coder descriptions *)

Definition serialize_coder (coder : Coder) : result string :=
  blob <- pickler_dumps (pickler rt) coder ;;
  Ok (class_name coder ++ "$" ++ blob)%string.

(** [s.split(sep, 1)]: the text before and after the first [sep], or [s]
    alone when it has none. *)
Fixpoint split1 (sep : ascii) (s : string) : list string :=
  match s with
  | EmptyString => [EmptyString]
  | String a s' =>
    if Ascii.eqb a sep then [EmptyString; s']
    else
      match split1 sep s' with
      | [h] => [String a h]
      | h :: t => String a h :: t
      | [] => []
      end
  end.

(** [sep in s]. *)
Fixpoint contains (sep : ascii) (s : string) : bool :=
  match s with
  | EmptyString => false
  | String a s' => Ascii.eqb a sep || contains sep s'
  end.

Definition deserialize_coder (serialized : string) : result PyObject :=
  match nth_error (split1 "$"%char serialized) 1 with
  | Some blob => pickler_loads (pickler rt) blob
  | None => Raise IndexError
  end.

(** *** The Dataflow API description *)

Definition Coder_as_cloud_object (self : Coder)
  (components : list (result CloudObject)) : result CloudObject :=
  type <- serialize_coder self ;;
  encodings <- sequence components ;;
  Ok (cloud_object type None None None (Some encodings)).

(** [as_cloud_object(is_pair_like=True)] of [_PickleCoderBase] and of
    [FastPrimitivesCoder], neither of which has component coders. *)
Definition pair_like_as_cloud_object (self : Coder) : result CloudObject :=
  value <- Coder_as_cloud_object self [] ;;
  key <- Coder_as_cloud_object self [] ;;
  val <- Coder_as_cloud_object self [] ;;
  Ok (cloud_object (cloud_type value) (Some true) (cloud_is_stream_like value)
        (cloud_is_wrapper value) (Some [key; val])).

Fixpoint as_cloud_object (c : Coder) : result CloudObject :=
  match c with
  | PickleCoder | DillCoder | FastPrimitivesCoder _ =>
    pair_like_as_cloud_object c
  | TupleCoder coders =>
    if is_kv_coder c then
      encodings <- sequence (map as_cloud_object coders) ;;
      Ok (cloud_object "kind:pair" (Some true) None None (Some encodings))
    else Coder_as_cloud_object c (map as_cloud_object coders)
  | TupleSequenceCoder elem => Coder_as_cloud_object c [as_cloud_object elem]
  | IterableCoder elem =>
    encodings <- sequence [as_cloud_object elem] ;;
    Ok (cloud_object "kind:stream" None (Some true) None (Some encodings))
  | GlobalWindowCoder => Ok (cloud_object "kind:global_window" None None None None)
  | IntervalWindowCoder =>
    Ok (cloud_object "kind:interval_window" None None None None)
  | WindowedValueCoder wrapped _ window =>
    encodings <- sequence [as_cloud_object wrapped; as_cloud_object window] ;;
    Ok (cloud_object "kind:windowed_value" None None (Some true) (Some encodings))
  | LengthPrefixCoder value =>
    encodings <- sequence [as_cloud_object value] ;;
    Ok (cloud_object "kind:length_prefix" None None None (Some encodings))
  | _ => Coder_as_cloud_object c []
  end.

End Coders.

(** ** A sample runtime

    Small instances of the imported modules, on which the methods can be run:
    a serializer of [None] and of byte strings, a pickler of three coders, the
    callback handle of coder_impl, and the size of a base-128 varint. *)

Module Sample.

Definition pickle_dumps (v : PyVal) : result string :=
  match v with
  | PyNone => Ok "N."%string
  | PyStr s => Ok (String "S" s)
  | _ => Raise (OtherError "PicklingError")
  end.

Definition pickle_loads (s : string) : result PyVal :=
  match s with
  | String "S" t => Ok (PyStr t)
  | String "N" (String "." EmptyString) => Ok PyNone
  | _ => Raise (OtherError "UnpicklingError")
  end.

Definition serializer : ObjectSerializer :=
  {| dumps := pickle_dumps; loads := pickle_loads |}.

Definition coder_pickler : CoderPickler :=
  {| pickler_dumps := fun c =>
       match c with
       | VarIntCoder => Ok "i$v"%string
       | BytesCoder => Ok "b"%string
       | PickleCoder => Ok "p"%string
       | _ => Raise (OtherError "PicklingError")
       end;
     pickler_loads := fun s =>
       if String.eqb s "i$v" then Ok (ObjCoder VarIntCoder)
       else if String.eqb s "b" then Ok (ObjCoder BytesCoder)
       else if String.eqb s "p" then Ok (ObjCoder PickleCoder)
       else Raise (OtherError "UnpicklingError") |}.

Definition callback_impl (encoder : PyVal -> result string)
  (decoder : string -> result PyVal) (size_estimator : option (PyVal -> result Z))
  : CoderImpl :=
  {| impl_encode := encoder;
     impl_decode := decoder;
     impl_estimate_size :=
       match size_estimator with
       | Some f => f
       | None => fun v => b <- encoder v ;; Ok (len b)
       end |}.

Definition no_impl : CoderImpl :=
  {| impl_encode := fun _ => Raise NotImplementedError;
     impl_decode := fun _ => Raise NotImplementedError;
     impl_estimate_size := fun _ => Raise NotImplementedError |}.

Definition impl_module : CoderImplModule :=
  {| CallbackCoderImpl := callback_impl;
     BytesCoderImpl := no_impl;
     VarIntCoderImpl := no_impl;
     FloatCoderImpl := no_impl;
     TimestampCoderImpl := no_impl;
     SingletonCoderImpl := fun _ => no_impl;
     DeterministicFastPrimitivesCoderImpl := fun _ _ => no_impl;
     FastPrimitivesCoderImpl := fun _ => no_impl;
     ProtoCoderImpl := fun _ => no_impl;
     TupleCoderImpl := fun _ => no_impl;
     TupleSequenceCoderImpl := fun _ => no_impl;
     IterableCoderImpl := fun _ => no_impl;
     IntervalWindowCoderImpl := no_impl;
     WindowedValueCoderImpl := fun _ _ _ => no_impl;
     LengthPrefixCoderImpl := fun _ => no_impl |}.

Fixpoint varint_groups (fuel : nat) (v : Z) : Z :=
  match fuel with
  | O => 1
  | S fuel' =>
    if (v <? 128)%Z then 1%Z else (1 + varint_groups fuel' (Z.shiftr v 7))%Z
  end.

Definition varint_size (v : Z) : result Z :=
  if (v <? 0)%Z then Raise ValueError else Ok (varint_groups 9 v).

Definition to_str (v : PyVal) : string :=
  match v with
  | PyNone => "None"
  | GlobalWindow => "GlobalWindow"
  | _ => "<object>"
  end.

Definition rt : Runtime :=
  {| pickle := serializer;
     dill := serializer;
     pickler := coder_pickler;
     coder_impl := impl_module;
     get_varint_size := varint_size;
     builtin_str := to_str |}.

End Sample.

(** ** Notions used in the statements *)

(** The values a coder is meant for.  A [StrUtf8Coder] takes unicode strings,
    a [Base64PickleCoder] what the pickle module can write and read back, a
    delegating coder what its implementation handle can; a [ToStringCoder]
    only encodes. *)
Definition supported (rt : Runtime) (c : Coder) (v : PyVal) : Prop :=
  match c with
  | StrUtf8Coder => exists u, v = PyUnicode u /\ forallb Utf8.scalar u = true
  | Base64PickleCoder =>
    exists p, dumps (pickle rt) v = Ok p /\ loads (pickle rt) p = Ok v
  | ToStringCoder => False
  | _ =>
    exists b, impl_encode (get_impl rt c) v = Ok b
              /\ impl_decode (get_impl rt c) b = Ok v
  end.

(** The tuple, sequence, iterable and windowed-value coders, as their
    constructors build them ([WindowedValueCoder.__init__] stores a
    [TimestampCoder]). *)
Definition composite (c : Coder) : bool :=
  match c with
  | TupleCoder _ | TupleSequenceCoder _ | IterableCoder _ => true
  | WindowedValueCoder _ TimestampCoder _ => true
  | _ => false
  end.

(** The classes that take [estimate_size] from [FastCoder]. *)
Definition forwards_estimate_size (c : Coder) : bool :=
  match c with
  | LengthPrefixCoder _ => false
  | _ => delegating c
  end.

(** The class names of coders.py. *)
Definition known_kind (name : string) : bool :=
  existsb (String.eqb name)
    (map class_name
       [StrUtf8Coder; ToStringCoder; BytesCoder; VarIntCoder; FloatCoder;
        TimestampCoder; SingletonCoder PyNone; PickleCoder; DillCoder;
        DeterministicFastPrimitivesCoder PickleCoder ""; FastPrimitivesCoder PickleCoder;
        Base64PickleCoder; ProtoCoder ""; TupleCoder []; TupleSequenceCoder PickleCoder;
        IterableCoder PickleCoder; GlobalWindowCoder; IntervalWindowCoder;
        WindowedValueCoder PickleCoder TimestampCoder PickleCoder;
        LengthPrefixCoder PickleCoder]).

(** [o] is [Some n]. *)
Definition is_index (o : option N) (n : N) : bool :=
  match o with
  | Some m => N.eqb m n
  | None => false
  end.

(** ** Hashing *)

(** The parts of the builtin [hash] that the [__hash__] methods call: the hash
    of a class (given by its name), of a value, and of a tuple, which Python
    computes from the hashes of its items. *)
Record HashRuntime : Type := {
  hash_type : string -> Z;
  hash_value : PyVal -> Z;
  hash_tuple : list Z -> Z
}.

(** [hash(c)].  The classes that define no [__hash__] keep the one of
    [object], which hashes the identity of the instance: the result is not a
    function of the coder, and is [None] here; so is the hash of a tuple with
    such an item. *)
Fixpoint __hash__ (h : HashRuntime) (c : Coder) : option Z :=
  match c with
  | StrUtf8Coder | ToStringCoder | Base64PickleCoder => None
  | DeterministicFastPrimitivesCoder _ _ => None
  | BytesCoder | VarIntCoder | FloatCoder | TimestampCoder
  | PickleCoder | DillCoder | FastPrimitivesCoder _ | IntervalWindowCoder =>
    Some (hash_type h (class_name c))
  | SingletonCoder v => Some (hash_value h v)
  | GlobalWindowCoder => Some (hash_value h GlobalWindow)
  | ProtoCoder t => Some (hash_type h t)
  | TupleCoder coders =>
    option_map (hash_tuple h)
      ((fix hashes (l : list Coder) : option (list Z) :=
          match l with
          | [] => Some []
          | x :: t =>
            match __hash__ h x, hashes t with
            | Some hx, Some ht => Some (hx :: ht)
            | _, _ => None
            end
          end) coders)
  | TupleSequenceCoder elem | IterableCoder elem =>
    option_map (fun he => hash_tuple h [hash_type h (class_name c); he])
      (__hash__ h elem)
  | WindowedValueCoder wrapped timestamp window =>
    match __hash__ h wrapped, __hash__ h timestamp, __hash__ h window with
    | Some hw, Some ht, Some hn => Some (hash_tuple h [hw; ht; hn])
    | _, _, _ => None
    end
  | LengthPrefixCoder value =>
    option_map (fun hv => hash_tuple h [hash_type h (class_name c); hv])
      (__hash__ h value)
  end.

(** The coders whose [__eq__] reads the attributes of [other], at every
    level that the comparison reaches. *)
Fixpoint eq_reads_other (c : Coder) : bool :=
  match c with
  | TupleCoder _ | TupleSequenceCoder _ | IterableCoder _ => false
  | DeterministicFastPrimitivesCoder u _ => eq_reads_other u
  | WindowedValueCoder wrapped timestamp window =>
    eq_reads_other wrapped && eq_reads_other timestamp && eq_reads_other window
  | LengthPrefixCoder value => eq_reads_other value
  | _ => true
  end.

(** ** The shapes of the Dataflow API description *)

(** The coders that [as_cloud_object] reaches from [c]: [c] and, through
    [_get_component_coders], the components of its components. *)
Fixpoint descendants (c : Coder) : list Coder :=
  c :: match c with
       | TupleCoder coders => flat_map descendants coders
       | TupleSequenceCoder elem | IterableCoder elem => descendants elem
       | WindowedValueCoder wrapped _ window =>
         descendants wrapped ++ descendants window
       | LengthPrefixCoder value => descendants value
       | _ => []
       end.

(** The classes whose description is marked [is_pair_like]. *)
Definition pair_like_class (c : Coder) : bool :=
  match c with
  | PickleCoder | DillCoder | FastPrimitivesCoder _ => true
  | TupleCoder coders => Nat.eqb (List.length coders) 2
  | _ => false
  end.

(** The classes whose '@type' entry is [serialize_coder(self)] and not a
    'kind:' tag. *)
Definition pickled_type (c : Coder) : bool :=
  match c with
  | TupleCoder coders => negb (Nat.eqb (List.length coders) 2)
  | IterableCoder _ | GlobalWindowCoder | IntervalWindowCoder => false
  | WindowedValueCoder _ _ _ | LengthPrefixCoder _ => false
  | _ => true
  end.

(** The 'component_encodings' entry that goes with the component coders of
    [c]: absent for the two window coders, the pair of plain descriptions for
    the classes with the [is_pair_like] default, and one encoding per
    component coder otherwise. *)
Definition lists_components (c : Coder) : bool :=
  match c with
  | PickleCoder | DillCoder | FastPrimitivesCoder _ => false
  | GlobalWindowCoder | IntervalWindowCoder => false
  | _ => true
  end.

(** ** The runner API envelope *)

(** The protocol-buffer messages of [to_runner_api]: [BytesValue] and [Any]
    of google.protobuf, and [FunctionSpec], [SdkFunctionSpec] and [Coder] of
    beam_runner_api_pb2, with the fields that coders.py sets and reads. *)
Record BytesValue : Type := { bytes_value : string }.
Record Any : Type := { type_url : string; any_value : string }.
Record FunctionSpec : Type := { urn : string; parameter : Any }.
Record SdkFunctionSpec : Type := { function_spec : FunctionSpec }.
Record CoderProto : Type := { sdk_function_spec : SdkFunctionSpec }.

(** What the envelope imports: [urns.PICKLED_CODER], [proto_utils.pack_Any]
    and the [Unpack] method of [Any], which fills the message it is given and
    returns whether the packed message was of its type. *)
Record EnvelopeRuntime : Type := {
  PICKLED_CODER : string;
  pack_Any : BytesValue -> Any;
  Unpack : Any -> option BytesValue
}.

Definition to_runner_api (rt : Runtime) (env : EnvelopeRuntime) (self : Coder)
  : result CoderProto :=
  description <- serialize_coder rt self ;;
  Ok {| sdk_function_spec :=
          {| function_spec :=
               {| urn := PICKLED_CODER env;
                  parameter := pack_Any env {| bytes_value := description |} |} |} |}.

(** [bytes_proto] starts as the empty message and stays so when [Unpack]
    finds another type. *)
Definition from_runner_api (rt : Runtime) (env : EnvelopeRuntime) (proto : CoderProto)
  : result PyObject :=
  let any_proto := parameter (function_spec (sdk_function_spec proto)) in
  let bytes_proto :=
    match Unpack env any_proto with
    | Some filled => filled
    | None => {| bytes_value := "" |}
    end in
  deserialize_coder rt (bytes_value bytes_proto).

(** ** What determinism depends on *)

(** The classes whose [is_deterministic] returns [False] outright. *)
Definition never_deterministic (c : Coder) : bool :=
  match c with
  | PickleCoder | DillCoder | Base64PickleCoder | ProtoCoder _ => true
  | _ => false
  end.

(** The coders that [is_deterministic] asks: the coder and, for the classes
    that forward the question, the coders they forward it to.  A
    [DeterministicFastPrimitivesCoder] does not ask its underlying coder. *)
Fixpoint asked_for_determinism (c : Coder) : list Coder :=
  c :: match c with
       | FastPrimitivesCoder fallback => asked_for_determinism fallback
       | TupleCoder coders => flat_map asked_for_determinism coders
       | TupleSequenceCoder elem | IterableCoder elem =>
         asked_for_determinism elem
       | WindowedValueCoder wrapped timestamp window =>
         asked_for_determinism wrapped ++ asked_for_determinism timestamp
         ++ asked_for_determinism window
       | LengthPrefixCoder value => asked_for_determinism value
       | _ => []
       end.

(** ** More sample instances *)

Module Fixtures.

(** A hash that tells classes and tuples apart and gives every value the
    same hash. *)
Definition hashes : HashRuntime :=
  {| hash_type := fun name => Z.of_nat (String.length name);
     hash_value := fun _ => 0%Z;
     hash_tuple := fun hs => fold_left (fun acc x => (31 * acc + x)%Z) hs 17%Z |}.

(** An [Any] that keeps the bytes of the message beside its type. *)
Definition bytes_value_url : string := "type.googleapis.com/google.protobuf.BytesValue".

Definition envelope : EnvelopeRuntime :=
  {| PICKLED_CODER := "urn:beam:coders:pickled_python:0.1";
     pack_Any := fun m => {| type_url := bytes_value_url; any_value := bytes_value m |};
     Unpack := fun a =>
       if String.eqb (type_url a) bytes_value_url
       then Some {| bytes_value := any_value a |}
       else None |}.

(** A pickler whose [dumps] returns on every coder. *)
Definition naming_pickler : CoderPickler :=
  {| pickler_dumps := fun c => Ok (class_name c);
     pickler_loads := fun _ => Raise (OtherError "UnpicklingError") |}.

(** A dill that writes the empty tuple, which [Sample.serializer] does not. *)
Definition dill_serializer : ObjectSerializer :=
  {| dumps := fun v =>
       match v with
       | PyTuple [] => Ok "T"%string
       | _ => Raise (OtherError "PicklingError")
       end;
     loads := fun s =>
       if String.eqb s "T" then Ok (PyTuple [])
       else Raise (OtherError "UnpicklingError") |}.

Definition rt : Runtime :=
  {| pickle := Sample.serializer;
     dill := dill_serializer;
     pickler := naming_pickler;
     coder_impl := Sample.impl_module;
     get_varint_size := Sample.varint_size;
     builtin_str := Sample.to_str |}.

End Fixtures.

(** * Properties *)

(** ** Bits as arithmetic *)

Section BitFacts.
Local Open Scope N_scope.

Lemma land_disjoint_pow2 (a b k : N) : b < 2 ^ k -> N.land (a * 2 ^ k) b = 0.
Proof.
  intros Hb. apply N.bits_inj. intros n.
  rewrite N.land_spec, N.bits_0.
  destruct (N.ltb_spec n k) as [Hn | Hn].
  - now rewrite N.mul_pow2_bits_low.
  - destruct (N.eq_dec b 0) as [-> | Hnz].
    + now rewrite N.bits_0, andb_false_r.
    + rewrite (N.bits_above_log2 b n), andb_false_r; [reflexivity|].
      apply N.lt_le_trans with k; [|assumption].
      apply N.log2_lt_pow2; lia.
Qed.

Lemma lor_pow2_add (a b k : N) :
  b < 2 ^ k -> N.lor (a * 2 ^ k) b = a * 2 ^ k + b.
Proof.
  intros Hb. pose proof (land_disjoint_pow2 a b k Hb) as H0.
  now rewrite (N.add_nocarry_lxor _ _ H0), (N.lxor_lor _ _ H0).
Qed.

(** A property of the numbers below [n], decided by running it on each. *)
Lemma forallb_below (test : N -> bool) (n : nat) :
  forallb test (map N.of_nat (seq 0 n)) = true ->
  forall x, x < N.of_nat n -> test x = true.
Proof.
  intros H x Hx. rewrite forallb_forall in H. apply H.
  rewrite <- (N2Nat.id x). apply in_map, in_seq. lia.
Qed.

Lemma str_bytes_bytes_str (l : list N) :
  Forall (fun b => b < 256) l -> str_bytes (bytes_str l) = l.
Proof.
  unfold str_bytes, bytes_str. intros H.
  rewrite list_ascii_of_string_of_list_ascii, map_map.
  induction H as [| b l Hb _ IH]; cbn [map]; [reflexivity|].
  now rewrite N_ascii_embedding, IH.
Qed.

Lemma bytes_str_str_bytes (s : string) : bytes_str (str_bytes s) = s.
Proof.
  unfold str_bytes, bytes_str. rewrite map_map.
  rewrite (map_ext _ (fun a => a) ascii_N_embedding), map_id.
  apply string_of_list_ascii_of_string.
Qed.

Lemma str_bytes_range (s : string) : Forall (fun b => b < 256) (str_bytes s).
Proof.
  unfold str_bytes. apply Forall_map, Forall_forall.
  intros a _. apply N_ascii_bounded.
Qed.

End BitFacts.

(** ** UTF-8: decoding inverts encoding *)

Module Utf8Facts.
Local Open Scope N_scope.

Ltac pow2 :=
  change (2 ^ 3) with 8 in *; change (2 ^ 4) with 16 in *;
  change (2 ^ 5) with 32 in *; change (2 ^ 6) with 64 in *;
  change (2 ^ 12) with 4096 in *; change (2 ^ 18) with 262144 in *.

Ltac masks :=
  rewrite ?N.shiftr_div_pow2, ?N.shiftl_mul_pow2;
  change 0x3F with (N.ones 6); change 0x1F with (N.ones 5);
  change 0x0F with (N.ones 4); change 0x07 with (N.ones 3);
  rewrite ?N.land_ones; pow2.

Lemma is_cont_range (b : N) :
  b < 256 -> Utf8.is_cont b = (0x80 <=? b) && (b <? 0xC0).
Proof.
  intros Hb.
  apply (forallb_below
           (fun b => Bool.eqb (Utf8.is_cont b) ((0x80 <=? b) && (b <? 0xC0))) 256)
    in Hb; [now apply eqb_prop | vm_compute; reflexivity].
Qed.

Lemma cont_byte (x : N) : N.lor 0x80 (N.land x 0x3F) = 128 + x mod 64.
Proof.
  change 0x80 with (2 * 2 ^ 6). rewrite lor_pow2_add; masks; [reflexivity | lia].
Qed.

Lemma lead2_byte (x : N) : x < 32 -> N.lor 0xC0 x = 192 + x.
Proof.
  intros H. change 0xC0 with (3 * 2 ^ 6). rewrite lor_pow2_add; pow2; lia.
Qed.

Lemma lead3_byte (x : N) : x < 16 -> N.lor 0xE0 x = 224 + x.
Proof.
  intros H. change 0xE0 with (14 * 2 ^ 4). rewrite lor_pow2_add; pow2; lia.
Qed.

Lemma lead4_byte (x : N) : x < 8 -> N.lor 0xF0 x = 240 + x.
Proof.
  intros H. change 0xF0 with (30 * 2 ^ 3). rewrite lor_pow2_add; pow2; lia.
Qed.

Lemma is_cont_cont_byte (x : N) : Utf8.is_cont (128 + x mod 64) = true.
Proof.
  rewrite is_cont_range by lia.
  apply andb_true_intro; split; [apply N.leb_le | apply N.ltb_lt]; lia.
Qed.

Lemma cont_payload (x : N) : (128 + x mod 64) mod 64 = x mod 64.
Proof. lia. Qed.

Lemma div_4096 (x : N) : x / 4096 = x / 64 / 64.
Proof. now rewrite N.Div0.div_div. Qed.

Lemma div_262144 (x : N) : x / 262144 = x / 64 / 64 / 64.
Proof. now rewrite !N.Div0.div_div. Qed.

(** Settles the comparisons of the goal that [lia] can settle. *)
Ltac decide_cmp :=
  repeat match goal with
  | |- context [?a <? ?b] =>
      first [ replace (a <? b) with true by (symmetry; apply N.ltb_lt; lia)
            | replace (a <? b) with false by (symmetry; apply N.ltb_ge; lia) ]
  | |- context [?a =? ?b] =>
      first [ replace (a =? b) with true by (symmetry; apply N.eqb_eq; lia)
            | replace (a =? b) with false by (symmetry; apply N.eqb_neq; lia) ]
  end.

(** The bytes of the four forms, as sums. *)
Ltac forms :=
  rewrite ?cont_byte, ?N.shiftr_div_pow2; pow2;
  rewrite ?lead2_byte, ?lead3_byte, ?lead4_byte by lia.

Ltac by_form ch :=
  unfold Utf8.encode_char;
  destruct (N.ltb_spec ch 0x80);
    [| destruct (N.ltb_spec ch 0x800);
       [| destruct (N.ltb_spec ch 0x10000)]];
  forms.

Lemma decode_encode_char (ch : N) (rest : list N) :
  ch < 0x110000 ->
  Utf8.decode_bytes (Utf8.encode_char ch ++ rest)
  = option_map (cons ch) (Utf8.decode_bytes rest).
Proof.
  intros Hch. by_form ch;
    cbn [app Utf8.decode_bytes]; unfold Utf8.decode_seq;
    rewrite ?is_cont_cont_byte; cbn [andb].
  - now decide_cmp.
  - decide_cmp. do 2 f_equal. masks. lia.
  - replace (negb _) with true.
    2:{ symmetry. apply negb_true_iff, andb_false_iff.
        destruct (N.eq_dec (ch / 4096) 0) as [E | E].
        - right. apply N.ltb_ge. lia.
        - left. apply N.eqb_neq. lia. }
    decide_cmp. do 2 f_equal. masks.
    rewrite ?cont_payload, ?div_4096. lia.
  - replace (negb ((240 + ch / 262144 =? 240) && _)) with true.
    2:{ symmetry. apply negb_true_iff, andb_false_iff.
        destruct (N.eq_dec (ch / 262144) 0) as [E | E].
        - right. apply N.ltb_ge. lia.
        - left. apply N.eqb_neq. lia. }
    replace (negb ((240 + ch / 262144 =? 244) && _)) with true.
    2:{ symmetry. apply negb_true_iff, andb_false_iff.
        destruct (N.eq_dec (ch / 262144) 4) as [E | E].
        - right. apply N.ltb_ge. lia.
        - left. apply N.eqb_neq. lia. }
    cbn [andb]. decide_cmp. do 2 f_equal. masks.
    rewrite ?cont_payload, ?div_262144, ?div_4096. lia.
Qed.

Lemma encode_char_range (ch : N) :
  ch < 0x110000 -> Forall (fun b => b < 256) (Utf8.encode_char ch).
Proof.
  intros Hch. by_form ch; repeat constructor; lia.
Qed.

Lemma scalar_code_point (ch : N) : Utf8.scalar ch = true -> ch < 0x110000.
Proof.
  unfold Utf8.scalar. intros H.
  apply orb_true_iff in H as [H | H]; [apply N.ltb_lt in H; lia|].
  apply andb_true_iff in H as [_ H]. now apply N.ltb_lt in H.
Qed.

Lemma utf8_decode_encode_bytes (u : list N) :
  Forall (fun ch => ch < 0x110000) u ->
  Utf8.decode_bytes (Utf8.encode_bytes u) = Some u.
Proof.
  induction 1 as [| ch u Hch _ IH]; [reflexivity|].
  unfold Utf8.encode_bytes in *. cbn [flat_map].
  now rewrite decode_encode_char, IH.
Qed.

Lemma encode_bytes_range (u : list N) :
  Forall (fun ch => ch < 0x110000) u ->
  Forall (fun b => b < 256) (Utf8.encode_bytes u).
Proof.
  induction 1 as [| ch u Hch _ IH]; [constructor|].
  unfold Utf8.encode_bytes in *. cbn [flat_map].
  apply Forall_app. split; [now apply encode_char_range | exact IH].
Qed.

Lemma decode_encode (u : list N) :
  forallb Utf8.scalar u = true -> Utf8.decode (Utf8.encode u) = Some u.
Proof.
  intros H. rewrite forallb_forall in H.
  assert (Hcp : Forall (fun ch => ch < 0x110000) u)
    by (apply Forall_forall; intros ch Hin; apply scalar_code_point, H, Hin).
  unfold Utf8.decode, Utf8.encode.
  rewrite str_bytes_bytes_str by now apply encode_bytes_range.
  now apply utf8_decode_encode_bytes.
Qed.

End Utf8Facts.

(** ** Base64: decoding inverts encoding *)

Module Base64Facts.
Local Open Scope N_scope.

Lemma index_of_char_of (n : N) :
  n < 64 -> Base64.index_of (Base64.char_of n) = Some n.
Proof.
  intros Hn.
  apply (forallb_below
           (fun n => is_index (Base64.index_of (Base64.char_of n)) n) 64) in Hn;
    [| vm_compute; reflexivity].
  unfold is_index in Hn.
  destruct (Base64.index_of (Base64.char_of n)); [|discriminate].
  apply N.eqb_eq in Hn. now subst.
Qed.

Lemma char_of_not_pad (n : N) :
  n < 64 -> Ascii.eqb (Base64.char_of n) Base64.pad = false.
Proof.
  intros Hn.
  apply (forallb_below
           (fun n => negb (Ascii.eqb (Base64.char_of n) Base64.pad)) 64) in Hn;
    [now apply negb_true_iff | vm_compute; reflexivity].
Qed.

Ltac pow2 :=
  change (2 ^ 2) with 4 in *; change (2 ^ 4) with 16 in *;
  change (2 ^ 6) with 64 in *.

(** The four sextets of a group, as quotients and remainders. *)
Lemma sextet0 (a : N) : N.shiftr a 2 = a / 4.
Proof. now rewrite N.shiftr_div_pow2. Qed.

Lemma sextet1_last (a : N) : N.shiftl (N.land a 3) 4 = a mod 4 * 16.
Proof.
  change 3 with (N.ones 2). now rewrite N.shiftl_mul_pow2, N.land_ones.
Qed.

Lemma sextet1 (a b : N) :
  b < 256 -> N.lor (N.shiftl (N.land a 3) 4) (N.shiftr b 4) = a mod 4 * 16 + b / 16.
Proof.
  intros Hb. change 3 with (N.ones 2).
  rewrite N.shiftl_mul_pow2, N.land_ones, N.shiftr_div_pow2, lor_pow2_add;
    pow2; [reflexivity | lia].
Qed.

Lemma sextet2_last (b : N) : N.shiftl (N.land b 15) 2 = b mod 16 * 4.
Proof.
  change 15 with (N.ones 4). now rewrite N.shiftl_mul_pow2, N.land_ones.
Qed.

Lemma sextet2 (b c : N) :
  c < 256 -> N.lor (N.shiftl (N.land b 15) 2) (N.shiftr c 6) = b mod 16 * 4 + c / 64.
Proof.
  intros Hc. change 15 with (N.ones 4).
  rewrite N.shiftl_mul_pow2, N.land_ones, N.shiftr_div_pow2, lor_pow2_add;
    pow2; [reflexivity | lia].
Qed.

Lemma sextet3 (c : N) : N.land c 63 = c mod 64.
Proof. change 63 with (N.ones 6). now rewrite N.land_ones. Qed.

(** The three bytes of a group, from its sextets. *)
Lemma byte0_arith (s0 s1 : N) : s1 < 64 -> Base64.byte0 s0 s1 = s0 * 4 + s1 / 16.
Proof.
  intros H. unfold Base64.byte0.
  rewrite N.shiftl_mul_pow2, N.shiftr_div_pow2, lor_pow2_add; pow2;
    [reflexivity | lia].
Qed.

Lemma byte1_arith (s1 s2 : N) :
  s2 < 64 -> Base64.byte1 s1 s2 = s1 mod 16 * 16 + s2 / 4.
Proof.
  intros H. unfold Base64.byte1. change 15 with (N.ones 4).
  rewrite N.shiftl_mul_pow2, N.land_ones, N.shiftr_div_pow2, lor_pow2_add;
    pow2; [reflexivity | lia].
Qed.

Lemma byte2_arith (s2 s3 : N) :
  s3 < 64 -> Base64.byte2 s2 s3 = s2 mod 4 * 64 + s3.
Proof.
  intros H. unfold Base64.byte2. change 3 with (N.ones 2).
  rewrite N.shiftl_mul_pow2, N.land_ones, lor_pow2_add; pow2;
    [reflexivity | lia].
Qed.

(** Lists, three elements at a time. *)
Lemma list_ind3 (A : Type) (P : list A -> Prop) :
  P [] -> (forall a, P [a]) -> (forall a b, P [a; b]) ->
  (forall a b c t, P t -> P (a :: b :: c :: t)) ->
  forall l, P l.
Proof.
  intros H0 H1 H2 H3 l.
  enough (H : P l /\ (forall a, P (a :: l)) /\ (forall a b, P (a :: b :: l)))
    by apply H.
  induction l as [| x l (IH0 & IH1 & IH2)]; [now repeat split|].
  repeat split; [apply IH1 | intros; apply IH2 | intros; now apply H3].
Qed.

Ltac sextets :=
  rewrite ?sextet1, ?sextet2 by assumption;
  rewrite ?sextet0, ?sextet1_last, ?sextet2_last, ?sextet3.

Ltac lookup :=
  rewrite ?index_of_char_of by lia; rewrite ?char_of_not_pad by lia.

Lemma b64_decode_encode_bytes (l : list N) :
  Forall (fun b => b < 256) l ->
  Base64.decode_chars (Base64.encode_bytes l) = Some l.
Proof.
  induction l as [| a | a b | a b c t IH] using list_ind3; intros H.
  - reflexivity.
  - inversion_clear H as [| ? ? Ha _].
    cbn [Base64.encode_bytes Base64.decode_chars]. sextets. lookup.
    change (Ascii.eqb Base64.pad Base64.pad) with true. cbv iota.
    rewrite byte0_arith by lia. do 2 f_equal. lia.
  - inversion_clear H as [| ? ? Ha H']. inversion_clear H' as [| ? ? Hb _].
    cbn [Base64.encode_bytes Base64.decode_chars]. sextets. lookup.
    change (Ascii.eqb Base64.pad Base64.pad) with true. cbv iota.
    rewrite byte0_arith, byte1_arith by lia.
    f_equal. f_equal; [lia|]. f_equal. lia.
  - inversion_clear H as [| ? ? Ha H']. inversion_clear H' as [| ? ? Hb H''].
    inversion_clear H'' as [| ? ? Hc Ht].
    cbn [Base64.encode_bytes Base64.decode_chars]. sextets. lookup.
    rewrite (IH Ht). cbn [option_map].
    rewrite byte0_arith, byte1_arith, byte2_arith by lia.
    f_equal. f_equal; [lia|]. f_equal; [lia|]. f_equal. lia.
Qed.

Lemma b64decode_b64encode (s : string) :
  Base64.b64decode (Base64.b64encode s) = Some s.
Proof.
  unfold Base64.b64decode, Base64.b64encode.
  rewrite list_ascii_of_string_of_list_ascii.
  rewrite b64_decode_encode_bytes by apply str_bytes_range.
  cbn [option_map]. now rewrite bytes_str_str_bytes.
Qed.

End Base64Facts.

(** ** Equality of values and of coders is reflexive *)

Lemma list_eqb_refl (A : Type) (eqb : A -> A -> bool) (l : list A) :
  (forall x, eqb x x = true) -> list_eqb eqb l l = true.
Proof.
  intros H. induction l as [| x l IH]; cbn; [reflexivity|].
  now rewrite H, IH.
Qed.

Lemma py_eq_refl (v : PyVal) : py_eq v v = true.
Proof.
  induction v as [| n | s | u | items IH |]; cbn; try reflexivity.
  - apply Z.eqb_refl.
  - apply String.eqb_refl.
  - apply list_eqb_refl, N.eqb_refl.
  - induction IH as [| x Hx items _ IHitems]; [reflexivity|].
    now rewrite Hx, IHitems.
Qed.

Lemma same_class_refl (c : Coder) : same_class c c = true.
Proof. apply String.eqb_refl. Qed.

Lemma __eq___refl (c : Coder) : __eq__ c c = true.
Proof.
  induction c as [ | | | | | | v | | | u IHu l | f IHf | | t | coders IH
                 | elem IHe | elem IHe | | | w IHw ts IHts win IHwin | v IHv ];
    cbn [__eq__]; rewrite ?same_class_refl; cbn [andb]; try reflexivity.
  - apply py_eq_refl.
  - now rewrite IHu, String.eqb_refl.
  - apply String.eqb_refl.
  - induction IH as [| x Hx coders _ IHcoders]; [reflexivity|].
    now rewrite Hx, IHcoders.
  - exact IHe.
  - exact IHe.
  - now rewrite IHw, IHts, IHwin.
  - exact IHv.
Qed.

(** ** Splitting a description at its first '$' *)

Lemma split1_absent (sep : ascii) (s : string) :
  contains sep s = false -> split1 sep s = [s].
Proof.
  induction s as [| a s IH]; cbn; [reflexivity|].
  intros H. apply orb_false_iff in H as [Ha Hs].
  now rewrite Ha, (IH Hs).
Qed.

Lemma split1_first (sep : ascii) (k blob : string) :
  contains sep k = false ->
  split1 sep (k ++ String sep blob) = [k; blob].
Proof.
  induction k as [| a k IH]; cbn.
  - intros _. now rewrite Ascii.eqb_refl.
  - intros H. apply orb_false_iff in H as [Ha Hk].
    now rewrite Ha, (IH Hk).
Qed.

Lemma class_name_no_dollar (c : Coder) : contains "$" (class_name c) = false.
Proof. now destruct c. Qed.

(** ** Round trip of values *)

Lemma StrUtf8Coder_round_trip (u : list N) :
  forallb Utf8.scalar u = true ->
  StrUtf8Coder_decode (Utf8.encode u) = Ok (PyUnicode u).
Proof.
  intros H. unfold StrUtf8Coder_decode.
  now rewrite Utf8Facts.decode_encode.
Qed.

Lemma Base64PickleCoder_round_trip (rt : Runtime) (v : PyVal) (p : string) :
  dumps (pickle rt) v = Ok p -> loads (pickle rt) p = Ok v ->
  Base64PickleCoder_encode rt v = Ok (Base64.b64encode p)
  /\ Base64PickleCoder_decode rt (Base64.b64encode p) = Ok v.
Proof.
  intros Hd Hl. unfold Base64PickleCoder_encode, Base64PickleCoder_decode.
  rewrite Hd, Base64Facts.b64decode_b64encode. now split.
Qed.

(** C1 (as amended): for every coder [c] other than [ToStringCoder] and every
    value [v] of its domain, [c.encode(v)] returns and [c.decode] maps the
    result back to [v]: for [StrUtf8Coder] on unicode strings, for
    [Base64PickleCoder] on the values that pickle writes and reads back, and
    for a delegating coder on the values its handle writes and reads back.
    [ToStringCoder.decode] raises [NotImplementedError] on every input. *)
Theorem decode_encode_round_trip (rt : Runtime) (c : Coder) (v : PyVal) :
  (supported rt c v ->
   exists b, encode rt c v = Ok b /\ decode rt c b = Ok v)
  /\ (forall encoded, decode rt ToStringCoder encoded = Raise NotImplementedError).
Proof.
  split; [| reflexivity].
  destruct c; cbn [supported]; try exact (fun H => H).
  - intros (u & -> & Hu). exists (Utf8.encode u). split; [reflexivity|].
    now apply StrUtf8Coder_round_trip.
  - intros [].
  - intros (p & Hd & Hl). exists (Base64.b64encode p).
    now apply Base64PickleCoder_round_trip.
Qed.

(** C1, as stated, fails: [ToStringCoder] encodes a unicode string and cannot
    decode the result. *)
Lemma ToStringCoder_is_encode_only :
  encode Sample.rt ToStringCoder (PyUnicode [104; 105]%N) = Ok "hi"%string
  /\ decode Sample.rt ToStringCoder "hi" = Raise NotImplementedError.
Proof. split; reflexivity. Qed.

Lemma decode_encode_round_trip_witness :
  (supported Sample.rt StrUtf8Coder (PyUnicode [104; 233; 8364; 128512]%N)
   /\ exists b, encode Sample.rt StrUtf8Coder (PyUnicode [104; 233; 8364; 128512]%N) = Ok b
                /\ decode Sample.rt StrUtf8Coder b
                   = Ok (PyUnicode [104; 233; 8364; 128512]%N))
  /\ (supported Sample.rt Base64PickleCoder (PyStr "any carnal pleas")
      /\ exists b, encode Sample.rt Base64PickleCoder (PyStr "any carnal pleas") = Ok b
                   /\ decode Sample.rt Base64PickleCoder b
                      = Ok (PyStr "any carnal pleas"))
  /\ (supported Sample.rt PickleCoder PyNone
      /\ exists b, encode Sample.rt PickleCoder PyNone = Ok b
                   /\ decode Sample.rt PickleCoder b = Ok PyNone).
Proof.
  assert (H1 : supported Sample.rt StrUtf8Coder (PyUnicode [104; 233; 8364; 128512]%N)).
  { eexists. split; reflexivity. }
  assert (H2 : supported Sample.rt Base64PickleCoder (PyStr "any carnal pleas")).
  { eexists. split; reflexivity. }
  assert (H3 : supported Sample.rt PickleCoder PyNone).
  { eexists. split; reflexivity. }
  split; [| split].
  - split; [exact H1 | exact (proj1 (decode_encode_round_trip _ _ _) H1)].
  - split; [exact H2 | exact (proj1 (decode_encode_round_trip _ _ _) H2)].
  - split; [exact H3 | exact (proj1 (decode_encode_round_trip _ _ _) H3)].
Defined.

(** ** Determinism of the composite coders *)

Lemma composite_WindowedValueCoder__init__ (wrapped : Coder) (window : option Coder) :
  composite (WindowedValueCoder__init__ wrapped window) = true.
Proof. reflexivity. Qed.

Lemma is_deterministic_components (c : Coder) :
  composite c = true ->
  is_deterministic c = forallb is_deterministic (_get_component_coders c).
Proof.
  destruct c as [ | | | | | | | | | | | | | coders | elem | elem | |
                | wrapped ts window | ]; try discriminate; intros H; cbn.
  - reflexivity.
  - now rewrite andb_true_r.
  - now rewrite andb_true_r.
  - destruct ts; try discriminate. reflexivity.
Qed.

(** C2: a tuple, sequence, iterable or windowed-value coder is deterministic
    exactly when all its component coders are; with one component that is not
    deterministic, it is not. *)
Theorem composite_determinism (c : Coder) :
  composite c = true ->
  (is_deterministic c = true
   <-> Forall (fun k => is_deterministic k = true) (_get_component_coders c))
  /\ (forall k, In k (_get_component_coders c) ->
                is_deterministic k = false -> is_deterministic c = false).
Proof.
  intros H. rewrite (is_deterministic_components c H). split.
  - rewrite forallb_forall, Forall_forall. reflexivity.
  - intros k Hin Hk. apply not_true_is_false. intros Hall.
    rewrite forallb_forall in Hall. rewrite (Hall k Hin) in Hk. discriminate.
Qed.

Lemma composite_determinism_witness :
  composite (TupleCoder [VarIntCoder; PickleCoder]) = true
  /\ is_deterministic (TupleCoder [VarIntCoder; PickleCoder]) = false
  /\ composite (WindowedValueCoder__init__ VarIntCoder (Some IntervalWindowCoder)) = true
  /\ is_deterministic (WindowedValueCoder__init__ VarIntCoder (Some IntervalWindowCoder))
     = true.
Proof.
  split; [reflexivity | split; [| split; [reflexivity |]]].
  - apply (proj2 (composite_determinism (TupleCoder [VarIntCoder; PickleCoder])
                    eq_refl) PickleCoder); [right; left|]; reflexivity.
  - apply (proj1 (composite_determinism
                    (WindowedValueCoder__init__ VarIntCoder (Some IntervalWindowCoder))
                    eq_refl)).
    repeat constructor.
Defined.

(** ** Equality of coders *)

(** C3: the [__eq__] of [TupleCoder], [TupleSequenceCoder] and [IterableCoder]
    compares the components of [self] with themselves, so two such coders are
    equal whatever their components are; [LengthPrefixCoder], which names
    [other], tells the same components apart. *)
Theorem eq_ignores_components :
  (forall coders coders', __eq__ (TupleCoder coders) (TupleCoder coders') = true)
  /\ (forall elem elem',
         __eq__ (TupleSequenceCoder elem) (TupleSequenceCoder elem') = true)
  /\ (forall elem elem', __eq__ (IterableCoder elem) (IterableCoder elem') = true)
  /\ __eq__ (TupleCoder [VarIntCoder]) (TupleCoder [BytesCoder]) = true
  /\ __eq__ (LengthPrefixCoder VarIntCoder) (LengthPrefixCoder BytesCoder) = false.
Proof.
  repeat split.
  - intros coders coders'.
    pose proof (__eq___refl (TupleCoder coders)) as H. exact H.
  - intros elem elem'. exact (__eq___refl (TupleSequenceCoder elem)).
  - intros elem elem'. exact (__eq___refl (IterableCoder elem)).
Qed.

(** ** The key/value view *)

(** C4: a [TupleCoder] of exactly two components is a KV coder whose key and
    value coders are the first and the second component; with any other
    number of components it is not one, and [key_coder] and [value_coder]
    raise [ValueError]. *)
Theorem tuple_kv_duality :
  (forall k_coder v_coder,
      is_kv_coder (TupleCoder [k_coder; v_coder]) = true
      /\ key_coder (TupleCoder [k_coder; v_coder]) = Ok k_coder
      /\ value_coder (TupleCoder [k_coder; v_coder]) = Ok v_coder)
  /\ (forall coders, List.length coders <> 2%nat ->
        is_kv_coder (TupleCoder coders) = false
        /\ key_coder (TupleCoder coders) = Raise ValueError
        /\ value_coder (TupleCoder coders) = Raise ValueError).
Proof.
  split.
  - intros k v. repeat split.
  - intros coders H. apply Nat.eqb_neq in H. cbn. now rewrite H.
Qed.

Lemma tuple_kv_duality_witness :
  (is_kv_coder (TupleCoder [VarIntCoder; BytesCoder]) = true
   /\ key_coder (TupleCoder [VarIntCoder; BytesCoder]) = Ok VarIntCoder
   /\ value_coder (TupleCoder [VarIntCoder; BytesCoder]) = Ok BytesCoder)
  /\ (List.length [VarIntCoder] <> 2%nat
      /\ is_kv_coder (TupleCoder [VarIntCoder]) = false
      /\ key_coder (TupleCoder [VarIntCoder]) = Raise ValueError
      /\ value_coder (TupleCoder [VarIntCoder]) = Raise ValueError)
  /\ (List.length [VarIntCoder; BytesCoder; FloatCoder] <> 2%nat
      /\ is_kv_coder (TupleCoder [VarIntCoder; BytesCoder; FloatCoder]) = false
      /\ key_coder (TupleCoder [VarIntCoder; BytesCoder; FloatCoder]) = Raise ValueError
      /\ value_coder (TupleCoder [VarIntCoder; BytesCoder; FloatCoder])
         = Raise ValueError).
Proof.
  assert (H1 : List.length [VarIntCoder] <> 2%nat) by discriminate.
  assert (H3 : List.length [VarIntCoder; BytesCoder; FloatCoder] <> 2%nat)
    by discriminate.
  split; [| split].
  - exact (proj1 tuple_kv_duality VarIntCoder BytesCoder).
  - split; [exact H1 | exact (proj2 tuple_kv_duality _ H1)].
  - split; [exact H3 | exact (proj2 tuple_kv_duality _ H3)].
Defined.

(** C8: the pickle-backed coders ([PickleCoder], [DillCoder]) are not
    deterministic, and are KV coders whose key and value coders are the coder
    itself. *)
Theorem pickle_coder_roles (c : Coder) :
  c = PickleCoder \/ c = DillCoder ->
  is_deterministic c = false
  /\ is_kv_coder c = true
  /\ key_coder c = Ok c
  /\ value_coder c = Ok c.
Proof. intros [-> | ->]; repeat split. Qed.

Lemma pickle_coder_roles_witness :
  (is_deterministic PickleCoder = false
   /\ is_kv_coder PickleCoder = true
   /\ key_coder PickleCoder = Ok PickleCoder
   /\ value_coder PickleCoder = Ok PickleCoder)
  /\ (is_deterministic DillCoder = false
      /\ is_kv_coder DillCoder = true
      /\ key_coder DillCoder = Ok DillCoder
      /\ value_coder DillCoder = Ok DillCoder).
Proof.
  split.
  - exact (pickle_coder_roles PickleCoder (or_introl eq_refl)).
  - exact (pickle_coder_roles DillCoder (or_intror eq_refl)).
Defined.

(** C10: a [DeterministicFastPrimitivesCoder] is a KV coder whose key and
    value coders are the wrapper itself, whatever coder it wraps. *)
Theorem deterministic_fast_primitives_kv (u : Coder) (s : string) :
  is_kv_coder (DeterministicFastPrimitivesCoder u s) = true
  /\ key_coder (DeterministicFastPrimitivesCoder u s)
     = Ok (DeterministicFastPrimitivesCoder u s)
  /\ value_coder (DeterministicFastPrimitivesCoder u s)
     = Ok (DeterministicFastPrimitivesCoder u s).
Proof. repeat split. Qed.

(** ** Coder descriptions *)

Lemma deserialize_coder_description (rt : Runtime) (kind blob : string) :
  contains "$" kind = false ->
  deserialize_coder rt (kind ++ "$" ++ blob) = pickler_loads (pickler rt) blob.
Proof.
  intros H. unfold deserialize_coder.
  change (kind ++ "$" ++ blob)%string with (kind ++ String "$" blob)%string.
  now rewrite (split1_first _ _ _ H).
Qed.

(** C5: when the pickler writes the coder [c] and reads it back,
    [serialize_coder] returns the class name of [c], a '$' and the pickled
    coder, and [deserialize_coder] maps that description to a coder equal to
    [c]. *)
Theorem deserialize_serialize_coder (rt : Runtime) (c : Coder) (blob : string) :
  pickler_dumps (pickler rt) c = Ok blob ->
  pickler_loads (pickler rt) blob = Ok (ObjCoder c) ->
  exists description c',
    serialize_coder rt c = Ok description
    /\ description = (class_name c ++ "$" ++ blob)%string
    /\ deserialize_coder rt description = Ok (ObjCoder c')
    /\ __eq__ c' c = true.
Proof.
  intros Hd Hl. exists (class_name c ++ "$" ++ blob)%string, c.
  unfold serialize_coder. rewrite Hd. cbn [bind].
  rewrite deserialize_coder_description by apply class_name_no_dollar.
  repeat split; [exact Hl | apply __eq___refl].
Qed.

Lemma deserialize_serialize_coder_witness :
  pickler_dumps (pickler Sample.rt) VarIntCoder = Ok "i$v"%string
  /\ pickler_loads (pickler Sample.rt) "i$v" = Ok (ObjCoder VarIntCoder)
  /\ exists description c',
       serialize_coder Sample.rt VarIntCoder = Ok description
       /\ description = (class_name VarIntCoder ++ "$" ++ "i$v")%string
       /\ deserialize_coder Sample.rt description = Ok (ObjCoder c')
       /\ __eq__ c' VarIntCoder = true.
Proof.
  split; [reflexivity | split; [reflexivity |]].
  exact (deserialize_serialize_coder Sample.rt VarIntCoder "i$v" eq_refl eq_refl).
Defined.

(** C7 (as amended): [deserialize_coder] does not read the kind.  On a
    description without '$' it raises [IndexError]; on any other it returns
    what [pickler.loads] returns, or raises what it raises, on the text after
    the first '$'. *)
Theorem deserialize_coder_ignores_kind (rt : Runtime) :
  (forall description, contains "$" description = false ->
     deserialize_coder rt description = Raise IndexError)
  /\ (forall kind blob, contains "$" kind = false ->
        deserialize_coder rt (kind ++ "$" ++ blob)
        = pickler_loads (pickler rt) blob).
Proof.
  split.
  - intros d H. unfold deserialize_coder. now rewrite (split1_absent _ _ H).
  - intros kind blob. apply deserialize_coder_description.
Qed.

(** C7, as stated, fails: a description of an unknown kind is deserialized. *)
Lemma unknown_kind_is_deserialized :
  known_kind "NoSuchCoder" = false
  /\ deserialize_coder Sample.rt "NoSuchCoder$i$v" = Ok (ObjCoder VarIntCoder).
Proof. split; reflexivity. Qed.

Lemma deserialize_coder_ignores_kind_witness :
  (contains "$" "VarIntCoder" = false
   /\ deserialize_coder Sample.rt "VarIntCoder" = Raise IndexError)
  /\ (contains "$" "NoSuchCoder" = false
      /\ deserialize_coder Sample.rt ("NoSuchCoder" ++ "$" ++ "b")
         = pickler_loads (pickler Sample.rt) "b")
  /\ (contains "$" "BytesCoder" = false
      /\ deserialize_coder Sample.rt ("BytesCoder" ++ "$" ++ "corrupt")
         = pickler_loads (pickler Sample.rt) "corrupt").
Proof.
  split; [| split].
  - split; [reflexivity|].
    exact (proj1 (deserialize_coder_ignores_kind Sample.rt) "VarIntCoder"%string eq_refl).
  - split; [reflexivity|].
    exact (proj2 (deserialize_coder_ignores_kind Sample.rt) "NoSuchCoder"%string
             "b"%string eq_refl).
  - split; [reflexivity|].
    exact (proj2 (deserialize_coder_ignores_kind Sample.rt) "BytesCoder"%string
             "corrupt"%string eq_refl).
Defined.

(** ** The Dataflow API description of KV coders *)

Lemma Coder_as_cloud_object_leaf (rt : Runtime) (c : Coder) (blob : string) :
  pickler_dumps (pickler rt) c = Ok blob ->
  Coder_as_cloud_object rt c []
  = Ok (cloud_object (class_name c ++ "$" ++ blob) None None None (Some [])).
Proof.
  intros H. unfold Coder_as_cloud_object, serialize_coder. now rewrite H.
Qed.

(** C6 (as amended): [PickleCoder], [DillCoder] and [FastPrimitivesCoder]
    project to a document with [is_pair_like] true and two component
    encodings (twice the plain description of the coder), and a [TupleCoder]
    of two components to a 'kind:pair' document with [is_pair_like] true and
    the two encodings of its components.  A [WindowedValueCoder] projects to
    a 'kind:windowed_value' document with [is_wrapper] true, no
    [is_pair_like], and the encodings of its wrapped value coder and of its
    window coder, whether the wrapped coder is a KV coder or not. *)
Theorem as_cloud_object_pair_like (rt : Runtime) :
  (forall c blob,
      c = PickleCoder \/ c = DillCoder \/ (exists f, c = FastPrimitivesCoder f) ->
      pickler_dumps (pickler rt) c = Ok blob ->
      let plain :=
        cloud_object (class_name c ++ "$" ++ blob) None None None (Some []) in
      as_cloud_object rt c
      = Ok (cloud_object (class_name c ++ "$" ++ blob) (Some true) None None
              (Some [plain; plain])))
  /\ (forall k v dk dv,
        as_cloud_object rt k = Ok dk -> as_cloud_object rt v = Ok dv ->
        as_cloud_object rt (TupleCoder [k; v])
        = Ok (cloud_object "kind:pair" (Some true) None None (Some [dk; dv])))
  /\ (forall wrapped ts window dw dwin,
        as_cloud_object rt wrapped = Ok dw -> as_cloud_object rt window = Ok dwin ->
        as_cloud_object rt (WindowedValueCoder wrapped ts window)
        = Ok (cloud_object "kind:windowed_value" None None (Some true)
                (Some [dw; dwin]))).
Proof.
  split; [| split].
  - intros c blob Hc Hd plain.
    assert (as_cloud_object rt c = pair_like_as_cloud_object rt c) as ->
      by (destruct Hc as [-> | [-> | [f ->]]]; reflexivity).
    unfold pair_like_as_cloud_object.
    now rewrite (Coder_as_cloud_object_leaf rt c blob Hd).
  - intros k v dk dv Hk Hv. cbn. now rewrite Hk, Hv.
  - intros wrapped ts window dw dwin Hw Hwin. cbn. now rewrite Hw, Hwin.
Qed.

(** C6, as stated, fails: a windowed-value coder around a pair coder is a KV
    coder, and its document has no [is_pair_like]. *)
Lemma windowed_kv_coder_is_not_pair_like :
  let c := WindowedValueCoder__init__
             (TupleCoder [IntervalWindowCoder; IntervalWindowCoder])
             (Some IntervalWindowCoder) in
  let window := cloud_object "kind:interval_window" None None None None in
  is_kv_coder c = true
  /\ as_cloud_object Sample.rt c
     = Ok (cloud_object "kind:windowed_value" None None (Some true)
             (Some [cloud_object "kind:pair" (Some true) None None
                      (Some [window; window]);
                    window])).
Proof. split; reflexivity. Qed.

Lemma as_cloud_object_pair_like_witness :
  (pickler_dumps (pickler Sample.rt) PickleCoder = Ok "p"%string
   /\ as_cloud_object Sample.rt PickleCoder
      = Ok (cloud_object "PickleCoder$p" (Some true) None None
              (Some [cloud_object "PickleCoder$p" None None None (Some []);
                     cloud_object "PickleCoder$p" None None None (Some [])])))
  /\ (as_cloud_object Sample.rt VarIntCoder
      = Ok (cloud_object "VarIntCoder$i$v" None None None (Some []))
      /\ as_cloud_object Sample.rt (TupleCoder [VarIntCoder; VarIntCoder])
         = Ok (cloud_object "kind:pair" (Some true) None None
                 (Some [cloud_object "VarIntCoder$i$v" None None None (Some []);
                        cloud_object "VarIntCoder$i$v" None None None (Some [])])))
  /\ (as_cloud_object Sample.rt IntervalWindowCoder
      = Ok (cloud_object "kind:interval_window" None None None None)
      /\ as_cloud_object Sample.rt
           (WindowedValueCoder VarIntCoder TimestampCoder IntervalWindowCoder)
         = Ok (cloud_object "kind:windowed_value" None None (Some true)
                 (Some [cloud_object "VarIntCoder$i$v" None None None (Some []);
                        cloud_object "kind:interval_window" None None None None]))).
Proof.
  pose proof (as_cloud_object_pair_like Sample.rt) as (Hp & Ht & Hw).
  split; [| split].
  - split; [reflexivity|].
    exact (Hp PickleCoder "p"%string (or_introl eq_refl) eq_refl).
  - split; [reflexivity|].
    exact (Ht VarIntCoder VarIntCoder _ _ eq_refl eq_refl).
  - split; [reflexivity|].
    exact (Hw VarIntCoder TimestampCoder IntervalWindowCoder _ _ eq_refl eq_refl).
Defined.

(** The other coders that report [is_kv_coder]: [Base64PickleCoder] and
    [DeterministicFastPrimitivesCoder] have the description of [Coder], with
    no [is_pair_like] and no component encodings. *)
Lemma as_cloud_object_default_kv (rt : Runtime) (c : Coder) (blob : string) :
  c = Base64PickleCoder \/ (exists u s, c = DeterministicFastPrimitivesCoder u s) ->
  pickler_dumps (pickler rt) c = Ok blob ->
  is_kv_coder c = true
  /\ as_cloud_object rt c
     = Ok (cloud_object (class_name c ++ "$" ++ blob) None None None (Some [])).
Proof.
  intros Hc Hd.
  assert (as_cloud_object rt c = Coder_as_cloud_object rt c [] /\ is_kv_coder c = true)
    as [-> Hkv] by (destruct Hc as [-> | (u & l & ->)]; split; reflexivity).
  split; [exact Hkv | now apply Coder_as_cloud_object_leaf].
Qed.

(** ** The size estimate of the length-prefix coder *)

(** C9: the estimate of a [LengthPrefixCoder] is the varint size of the
    estimate of the inner coder plus that estimate; and where the inner coder
    forwards to its handle, that estimate is [estimate_size] of the handle,
    not the length of an encoding. *)
Theorem length_prefix_estimate_size (rt : Runtime) (inner : Coder) (v : PyVal) :
  estimate_size rt (LengthPrefixCoder inner) v
  = (value_size <- estimate_size rt inner v ;;
     prefix <- get_varint_size rt value_size ;;
     Ok (prefix + value_size)%Z)
  /\ (forall value_size prefix,
        estimate_size rt inner v = Ok value_size ->
        get_varint_size rt value_size = Ok prefix ->
        estimate_size rt (LengthPrefixCoder inner) v = Ok (prefix + value_size)%Z)
  /\ (forwards_estimate_size inner = true ->
      estimate_size rt inner v = impl_estimate_size (get_impl rt inner) v).
Proof.
  split; [reflexivity | split].
  - intros n k Hn Hk. cbn [estimate_size]. rewrite Hn. cbn [bind]. now rewrite Hk.
  - destruct inner; try discriminate; reflexivity.
Qed.

Lemma length_prefix_estimate_size_witness :
  estimate_size Sample.rt StrUtf8Coder (PyUnicode [97; 98; 99]%N) = Ok 3%Z
  /\ get_varint_size Sample.rt 3 = Ok 1%Z
  /\ estimate_size Sample.rt (LengthPrefixCoder StrUtf8Coder) (PyUnicode [97; 98; 99]%N)
     = Ok (1 + 3)%Z.
Proof.
  split; [reflexivity | split; [reflexivity |]].
  exact (proj1 (proj2 (length_prefix_estimate_size Sample.rt StrUtf8Coder
                         (PyUnicode [97; 98; 99]%N)))
           3%Z 1%Z eq_refl eq_refl).
Defined.

(** ** Worked examples *)

Example utf8_encode_example :
  Utf8.encode [104; 233; 8364; 128512]%N
  = bytes_str [0x68; 0xC3; 0xA9; 0xE2; 0x82; 0xAC; 0xF0; 0x9F; 0x98; 0x80]%N.
Proof. reflexivity. Qed.

Example utf8_decode_overlong : Utf8.decode (bytes_str [0xC0; 0x80]%N) = None.
Proof. reflexivity. Qed.

Example utf8_decode_truncated : Utf8.decode (bytes_str [0xE2; 0x82]%N) = None.
Proof. reflexivity. Qed.

Example b64encode_example :
  Base64.b64encode "any carnal pleas" = "YW55IGNhcm5hbCBwbGVhcw=="%string
  /\ Base64.b64encode "any carnal pleasu" = "YW55IGNhcm5hbCBwbGVhc3U="%string
  /\ Base64.b64encode "any carnal pleasur" = "YW55IGNhcm5hbCBwbGVhc3Vy"%string.
Proof. repeat split. Qed.

Example b64decode_bad_padding : Base64.b64decode "YW55I" = None.
Proof. reflexivity. Qed.

Example split1_example :
  split1 "$" "TupleCoder$a$b" = ["TupleCoder"; "a$b"]%string
  /\ split1 "$" "TupleCoder" = ["TupleCoder"%string].
Proof. split; reflexivity. Qed.

Example windowed_default_window_coder :
  WindowedValueCoder__init__ VarIntCoder None
  = WindowedValueCoder VarIntCoder TimestampCoder PickleCoder
  /\ is_deterministic (WindowedValueCoder__init__ VarIntCoder None) = false.
Proof. split; reflexivity. Qed.

Example length_prefix_of_length_prefix :
  estimate_size Sample.rt (LengthPrefixCoder (LengthPrefixCoder StrUtf8Coder))
    (PyUnicode [8364]%N) = Ok 5%Z.
Proof. reflexivity. Qed.

(** * Further properties *)

(** ** The key/value accessors *)

(** [key_coder] returns exactly on the coders that report [is_kv_coder], and
    [key_coder] and [value_coder] fail on no KV coder; when one of them fails
    it raises [ValueError]: the [NotImplementedError] of [Coder.key_coder] and
    [Coder.value_coder] is raised by no class of the file. *)
Theorem kv_accessors_errors :
  (forall c,
      match key_coder c with
      | Ok _ => is_kv_coder c = true
      | Raise e => is_kv_coder c = false /\ e = ValueError
      end)
  /\ (forall c,
        match value_coder c with
        | Ok _ => True
        | Raise e => is_kv_coder c = false /\ e = ValueError
        end).
Proof.
  split; intros c.
  - induction c as [ | | | | | | v | | | u IHu l | f IHf | | t | coders IH
                   | elem IHe | elem IHe | | | w IHw ts IHts win IHwin | v IHv ];
      cbn; try (split; reflexivity); try reflexivity.
    + destruct coders as [| a [| b [| x tl]]]; cbn; split; reflexivity.
    + exact IHw.
  - induction c as [ | | | | | | v | | | u IHu l | f IHf | | t | coders IH
                   | elem IHe | elem IHe | | | w IHw ts IHts win IHwin | v IHv ];
      cbn; try (split; reflexivity); try exact I.
    + destruct coders as [| a [| b [| x tl]]]; cbn; try (split; reflexivity).
    + exact IHw.
Qed.

(** ** Determinism of the default components *)

(** A [WindowedValueCoder] built without a window coder, and a
    [FastPrimitivesCoder] built without a fallback coder, get a [PickleCoder]
    and are not deterministic, whatever the wrapped coder is; with a window
    coder, the windowed coder is deterministic when both coders are. *)
Theorem default_components_not_deterministic :
  (forall wrapped, is_deterministic (WindowedValueCoder__init__ wrapped None) = false)
  /\ is_deterministic (FastPrimitivesCoder__init__ None) = false
  /\ (forall wrapped window,
        is_deterministic (WindowedValueCoder__init__ wrapped (Some window))
        = is_deterministic wrapped && is_deterministic window).
Proof.
  split; [| split].
  - intros wrapped. cbn. now rewrite andb_false_r.
  - reflexivity.
  - intros wrapped window. cbn. now rewrite andb_true_r.
Qed.

(** ** Equality of coders is an equivalence *)






Lemma __eq___class (a b : Coder) : __eq__ a b = true -> class_name a = class_name b.
Proof.
  destruct a, b; try (intros _; reflexivity); cbn; discriminate.
Qed.




(** ** Hashing is consistent with equality *)

(** Where the hash of equal values is the same, two equal coders have the
    same hash, provided the hash is one that a [__hash__] of the file computes
    and the comparison is one that reads [other]. *)
Theorem hash_consistent_with_eq (h : HashRuntime) (a b : Coder) (ha : Z) :
  (forall v w, py_eq v w = true -> hash_value h v = hash_value h w) ->
  eq_reads_other a = true ->
  __hash__ h a = Some ha ->
  __eq__ a b = true ->
  __hash__ h b = Some ha.
Proof.
  intros Hval. revert b ha.
  induction a as [ | | | | | | v | | | u IHu l | f IHf | | t | coders IH
                 | elem IHe | elem IHe | | | w IHw ts IHts win IHwin | v IHv ];
    intros b ha Hr Hh Hab; try discriminate Hr; try discriminate Hh;
    pose proof (__eq___class _ _ Hab) as Cab;
    destruct b; try discriminate Cab; try exact Hh; cbn in Hab, Hh, Hr |- *.
  - now rewrite <- (Hval _ _ Hab).
  - apply String.eqb_eq in Hab. now subst.
  - apply andb_true_iff in Hr as [Hr R3]. apply andb_true_iff in Hr as [R1 R2].
    apply andb_true_iff in Hab as [Hab E3]. apply andb_true_iff in Hab as [E1 E2].
    destruct (__hash__ h w) as [hw |] eqn:Hw; [| discriminate].
    destruct (__hash__ h ts) as [ht |] eqn:Ht; [| discriminate].
    destruct (__hash__ h win) as [hn |] eqn:Hn; [| discriminate].
    now rewrite (IHw _ _ R1 eq_refl E1), (IHts _ _ R2 eq_refl E2),
      (IHwin _ _ R3 eq_refl E3).
  - destruct (__hash__ h v) as [hv |] eqn:Hv; [| discriminate].
    now rewrite (IHv _ _ Hr eq_refl Hab).
Qed.

(** ** The Dataflow API description, in general *)

Lemma bind_ok (A B : Type) (r : result A) (k : A -> result B) (b : B) :
  bind r k = Ok b -> exists a, r = Ok a /\ k a = Ok b.
Proof. destruct r as [a | e]; cbn; [eauto | discriminate]. Qed.

Lemma bind_raise (A B : Type) (r : result A) (k : A -> result B) (e : PyError) :
  bind r k = Raise e -> r = Raise e \/ exists a, r = Ok a /\ k a = Raise e.
Proof.
  destruct r as [a | e']; cbn; [eauto|].
  intros [= ->]. now left.
Qed.

Lemma sequence_ok (A : Type) (rs : list (result A)) (l : list A) :
  sequence rs = Ok l <-> Forall2 (fun r a => r = Ok a) rs l.
Proof.
  revert l. induction rs as [| r rs IH]; intros l; cbn.
  - split; [intros [= <-]; constructor | now inversion 1].
  - split.
    + intros H. apply bind_ok in H as (a & -> & H).
      apply bind_ok in H as (l' & H & [= <-]).
      constructor; [reflexivity | now apply IH].
    + inversion 1 as [| ? a ? l' -> Hl]; subst. cbn.
      apply IH in Hl. now rewrite Hl.
Qed.

Lemma sequence_raise (A : Type) (rs : list (result A)) (e : PyError) :
  sequence rs = Raise e -> In (Raise e) rs.
Proof.
  induction rs as [| r rs IH]; cbn; [discriminate|].
  intros H. apply bind_raise in H as [-> | (a & -> & H)]; [now left|].
  apply bind_raise in H as [H | (l & _ & H)]; [right; now apply IH | discriminate].
Qed.

Lemma sequence_all_ok (A : Type) (rs : list (result A)) :
  Forall (fun r => exists a, r = Ok a) rs -> exists l, sequence rs = Ok l.
Proof.
  induction 1 as [| r rs (a & ->) _ (l & IH)]; cbn; [eauto|].
  rewrite IH. cbn. eauto.
Qed.

Lemma serialize_coder_ok (rt : Runtime) (c : Coder) (d : string) :
  serialize_coder rt c = Ok d <->
  exists blob, pickler_dumps (pickler rt) c = Ok blob
               /\ d = (class_name c ++ "$" ++ blob)%string.
Proof.
  unfold serialize_coder. split.
  - intros H. apply bind_ok in H as (blob & H & [= <-]). eauto.
  - intros (blob & -> & ->). reflexivity.
Qed.

Lemma serialize_coder_raise (rt : Runtime) (c : Coder) (e : PyError) :
  serialize_coder rt c = Raise e <-> pickler_dumps (pickler rt) c = Raise e.
Proof.
  unfold serialize_coder. split.
  - intros H. apply bind_raise in H as [H | (a & _ & H)]; [exact H | discriminate].
  - now intros ->.
Qed.

Lemma Coder_as_cloud_object_ok (rt : Runtime) (c : Coder)
  (components : list (result CloudObject)) (doc : CloudObject) :
  Coder_as_cloud_object rt c components = Ok doc <->
  exists type encodings,
    serialize_coder rt c = Ok type /\ sequence components = Ok encodings
    /\ doc = cloud_object type None None None (Some encodings).
Proof.
  unfold Coder_as_cloud_object. split.
  - intros H. apply bind_ok in H as (type & Ht & H).
    apply bind_ok in H as (encodings & He & [= <-]). eauto.
  - intros (type & encodings & -> & He & ->). cbn. now rewrite He.
Qed.

Lemma Coder_as_cloud_object_raise (rt : Runtime) (c : Coder)
  (components : list (result CloudObject)) (e : PyError) :
  Coder_as_cloud_object rt c components = Raise e ->
  pickler_dumps (pickler rt) c = Raise e \/ In (Raise e) components.
Proof.
  unfold Coder_as_cloud_object. intros H.
  apply bind_raise in H as [H | (type & _ & H)].
  - left. now apply serialize_coder_raise.
  - apply bind_raise in H as [H | (l & _ & H)]; [| discriminate].
    right. now apply sequence_raise.
Qed.

Lemma pair_like_as_cloud_object_ok (rt : Runtime) (c : Coder) (doc : CloudObject) :
  pair_like_as_cloud_object rt c = Ok doc <->
  exists type,
    serialize_coder rt c = Ok type
    /\ doc = cloud_object type (Some true) None None
               (Some [cloud_object type None None None (Some []);
                      cloud_object type None None None (Some [])]).
Proof.
  unfold pair_like_as_cloud_object, Coder_as_cloud_object. split.
  - intros H. apply bind_ok in H as (value & Hv & H).
    apply bind_ok in Hv as (type & Ht & Hv). cbn in Hv. injection Hv as <-.
    rewrite Ht in H. cbn in H. injection H as <-. eauto.
  - intros (type & -> & ->). reflexivity.
Qed.

Lemma pair_like_as_cloud_object_raise (rt : Runtime) (c : Coder) (e : PyError) :
  pair_like_as_cloud_object rt c = Raise e -> pickler_dumps (pickler rt) c = Raise e.
Proof.
  unfold pair_like_as_cloud_object. intros H.
  destruct (Coder_as_cloud_object rt c []) as [value | e'] eqn:Hv; cbn in H.
  - discriminate.
  - injection H as ->.
    apply Coder_as_cloud_object_raise in Hv as [Hv | []]. exact Hv.
Qed.

Lemma sequence_map_ok (A B : Type) (f : A -> result B) (l : list A) (bs : list B) :
  sequence (map f l) = Ok bs <-> Forall2 (fun a b => f a = Ok b) l bs.
Proof.
  rewrite sequence_ok. revert bs.
  induction l as [| a l IH]; intros bs; cbn.
  - split; inversion 1; constructor.
  - split; inversion 1; subst; constructor; auto; now apply IH.
Qed.

(** Reads a returned description off the method that built it. *)
Ltac read_description H :=
  cbn [as_cloud_object] in H;
  repeat match type of H with
  | (if ?b then _ else _) = Ok _ => destruct b eqn:?
  | Coder_as_cloud_object _ _ _ = Ok _ =>
      apply Coder_as_cloud_object_ok in H as (? & ? & ? & ? & ->)
  | pair_like_as_cloud_object _ _ = Ok _ =>
      apply pair_like_as_cloud_object_ok in H as (? & ? & ->)
  | bind _ _ = Ok _ => apply bind_ok in H as (? & ? & H)
  | Ok _ = Ok _ => injection H as <-
  end.

(** The flags of a description tell the class of the coder: [is_pair_like]
    is set for [PickleCoder], [DillCoder], [FastPrimitivesCoder] and a
    [TupleCoder] of two components, [is_stream_like] for [IterableCoder],
    [is_wrapper] for [WindowedValueCoder], and none of them for any other
    coder. *)
Theorem as_cloud_object_flags (rt : Runtime) (c : Coder) (doc : CloudObject) :
  as_cloud_object rt c = Ok doc ->
  cloud_is_pair_like doc = (if pair_like_class c then Some true else None)
  /\ cloud_is_stream_like doc
     = match c with IterableCoder _ => Some true | _ => None end
  /\ cloud_is_wrapper doc
     = match c with WindowedValueCoder _ _ _ => Some true | _ => None end.
Proof.
  intros H. destruct c; read_description H; cbn in *;
    rewrite ?Heqb; repeat split.
Qed.

(** The 'component_encodings' of a description are the descriptions of the
    component coders, one for each and in their order, for every class but
    the two window coders and the three classes with the [is_pair_like]
    default. *)
Theorem as_cloud_object_components (rt : Runtime) (c : Coder) (doc : CloudObject) :
  lists_components c = true ->
  as_cloud_object rt c = Ok doc ->
  exists encodings,
    cloud_component_encodings doc = Some encodings
    /\ Forall2 (fun k d => as_cloud_object rt k = Ok d)
         (_get_component_coders c) encodings.
Proof.
  intros Hl H. destruct c; try discriminate Hl; read_description H;
    cbn [cloud_component_encodings _get_component_coders];
    eexists; (split; [reflexivity|]);
    try (now apply sequence_map_ok);
    match goal with
    | Hs : sequence _ = Ok _ |- _ => apply sequence_ok in Hs
    end; assumption.
Qed.

Lemma In_descendants_self (c : Coder) : In c (descendants c).
Proof. destruct c; now left. Qed.

Lemma In_descendants_component (c k x : Coder) :
  In k (_get_component_coders c) -> In x (descendants k) -> In x (descendants c).
Proof.
  intros H Hx. destruct c; cbn [_get_component_coders] in H; try contradiction;
    cbn [descendants]; right.
  - apply in_flat_map. eauto.
  - destruct H as [<- | []]. exact Hx.
  - destruct H as [<- | []]. exact Hx.
  - apply in_app_iff. destruct H as [<- | [<- | []]]; [now left | now right].
  - destruct H as [<- | []]. exact Hx.
Qed.

Lemma as_cloud_object_raise_origin (rt : Runtime) (c : Coder) (e : PyError) :
  as_cloud_object rt c = Raise e ->
  exists k, In k (descendants c) /\ pickler_dumps (pickler rt) k = Raise e.
Proof.
  assert (Hcomp : forall c ks,
             (forall k, In k ks -> In k (_get_component_coders c)) ->
             list_all Coder
               (fun k => as_cloud_object rt k = Raise e ->
                         exists x, In x (descendants k)
                                   /\ pickler_dumps (pickler rt) x = Raise e) ks ->
             In (Raise e) (map (as_cloud_object rt) ks) ->
             exists x, In x (descendants c)
                       /\ pickler_dumps (pickler rt) x = Raise e).
  { intros c0 ks Hsub Hall Hin. apply in_map_iff in Hin as (k & Hk & Hin).
    induction Hall as [| k0 Hk0 ks _ IH]; [destruct Hin|].
    destruct Hin as [-> | Hin].
    - destruct (Hk0 Hk) as (x & Hx & Hd). exists x. split; [| exact Hd].
      apply (In_descendants_component c0 k); [apply Hsub; now left | exact Hx].
    - apply IH; [intros; apply Hsub; now right | exact Hin]. }
  assert (Hself : forall c, pickler_dumps (pickler rt) c = Raise e ->
             exists x, In x (descendants c)
                       /\ pickler_dumps (pickler rt) x = Raise e)
    by (intros c0 H; exists c0; split; [apply In_descendants_self | exact H]).
  induction c as [ | | | | | | v | | | u IHu l | f IHf | | t | coders IH
                 | elem IHe | elem IHe | | | w IHw ts IHts win IHwin | v IHv ];
    intros H; cbn [as_cloud_object] in H;
    try (apply Coder_as_cloud_object_raise in H as [H | []]; now apply Hself);
    try (apply pair_like_as_cloud_object_raise in H; now apply Hself);
    try discriminate.
  - destruct (is_kv_coder (TupleCoder coders)).
    + apply bind_raise in H as [H | (? & _ & H)]; [| discriminate].
      apply sequence_raise in H.
      now apply (Hcomp (TupleCoder coders) coders).
    + apply Coder_as_cloud_object_raise in H as [H | H]; [now apply Hself|].
      now apply (Hcomp (TupleCoder coders) coders).
  - apply Coder_as_cloud_object_raise in H as [H | H]; [now apply Hself|].
    apply (Hcomp (TupleSequenceCoder elem) [elem]); [now intros | | exact H].
    repeat constructor. exact IHe.
  - apply bind_raise in H as [H | (? & _ & H)]; [| discriminate].
    apply sequence_raise in H.
    apply (Hcomp (IterableCoder elem) [elem]); [now intros | | exact H].
    repeat constructor. exact IHe.
  - apply bind_raise in H as [H | (? & _ & H)]; [| discriminate].
    apply sequence_raise in H.
    apply (Hcomp (WindowedValueCoder w ts win) [w; win]); [now intros | | exact H].
    repeat constructor; assumption.
  - apply bind_raise in H as [H | (? & _ & H)]; [| discriminate].
    apply sequence_raise in H.
    apply (Hcomp (LengthPrefixCoder v) [v]); [now intros | | exact H].
    repeat constructor. exact IHv.
Qed.

(** [as_cloud_object] raises nothing of its own: an exception that leaves it
    was raised by [pickler.dumps] on the coder or on one of the coders it
    reaches through the component coders; so it returns a description when
    [pickler.dumps] returns on all of them. *)
Theorem as_cloud_object_fails_with_pickler (rt : Runtime) (c : Coder) :
  (forall e, as_cloud_object rt c = Raise e ->
     exists k, In k (descendants c) /\ pickler_dumps (pickler rt) k = Raise e)
  /\ ((forall k, In k (descendants c) ->
                 exists blob, pickler_dumps (pickler rt) k = Ok blob) ->
      exists doc, as_cloud_object rt c = Ok doc).
Proof.
  split; [intros e; apply as_cloud_object_raise_origin|].
  intros Hd. destruct (as_cloud_object rt c) as [doc | e] eqn:H; [eauto|].
  apply as_cloud_object_raise_origin in H as (k & Hk & He).
  destruct (Hd k Hk) as (blob & Hb). congruence.
Qed.

(** The '@type' entry of a description is either the output of
    [serialize_coder], which [deserialize_coder] maps back to the coder when
    the pickler reads back what it wrote, or a 'kind:' tag, on which
    [deserialize_coder] raises [IndexError]. *)
Theorem cloud_type_deserializes (rt : Runtime) (c : Coder) (doc : CloudObject) :
  as_cloud_object rt c = Ok doc ->
  if pickled_type c then
    exists blob,
      pickler_dumps (pickler rt) c = Ok blob
      /\ cloud_type doc = (class_name c ++ "$" ++ blob)%string
      /\ (pickler_loads (pickler rt) blob = Ok (ObjCoder c) ->
          deserialize_coder rt (cloud_type doc) = Ok (ObjCoder c))
  else deserialize_coder rt (cloud_type doc) = Raise IndexError.
Proof.
  intros H.
  destruct c; read_description H; cbn [pickled_type cloud_type];
    cbn [is_kv_coder] in *; rewrite ?Heqb; cbn [negb];
    try reflexivity;
    match goal with
    | Hs : serialize_coder _ _ = Ok _ |- _ =>
        apply serialize_coder_ok in Hs as (blob & Hd & ->)
    end;
    exists blob; (split; [exact Hd | split; [reflexivity|]]);
    intros <-; apply deserialize_coder_description, class_name_no_dollar.
Qed.

(** ** The runner API envelope *)

(** When [Any] unpacks the [BytesValue] it packed and the pickler reads back
    the coder it wrote, [from_runner_api] maps the envelope of
    [to_runner_api], which carries the urn [PICKLED_CODER], to a coder equal
    to the one that was sent.  [from_runner_api] does not read the urn, and
    raises [IndexError] when the parameter is not a [BytesValue]. *)
Theorem from_runner_api_to_runner_api (rt : Runtime) (env : EnvelopeRuntime)
  (c : Coder) (blob : string) :
  (forall m, Unpack env (pack_Any env m) = Some m) ->
  pickler_dumps (pickler rt) c = Ok blob ->
  pickler_loads (pickler rt) blob = Ok (ObjCoder c) ->
  (exists proto c',
      to_runner_api rt env c = Ok proto
      /\ urn (function_spec (sdk_function_spec proto)) = PICKLED_CODER env
      /\ from_runner_api rt env proto = Ok (ObjCoder c')
      /\ __eq__ c' c = true)
  /\ (forall proto other_urn,
        from_runner_api rt env
          {| sdk_function_spec :=
               {| function_spec :=
                    {| urn := other_urn;
                       parameter :=
                         parameter (function_spec (sdk_function_spec proto)) |} |} |}
        = from_runner_api rt env proto)
  /\ (forall proto,
        Unpack env (parameter (function_spec (sdk_function_spec proto))) = None ->
        from_runner_api rt env proto = Raise IndexError).
Proof.
  intros Hany Hd Hl. split; [| split].
  - unfold to_runner_api, serialize_coder. rewrite Hd. cbn [bind].
    eexists. exists c. split; [reflexivity|]. split; [reflexivity|].
    unfold from_runner_api.
    cbn [sdk_function_spec function_spec parameter]. rewrite Hany.
    cbn [bytes_value].
    rewrite deserialize_coder_description by apply class_name_no_dollar.
    split; [exact Hl | apply __eq___refl].
  - reflexivity.
  - intros proto Hu. unfold from_runner_api. now rewrite Hu.
Qed.

(** ** Pickling with the dill fallback *)

(** [maybe_dill_loads] reads back what [maybe_dill_dumps] wrote, with pickle
    when pickle wrote it, and with dill when pickle could neither write the
    object nor read what dill wrote.  When both fail, the exception is the one
    of dill. *)
Theorem maybe_dill_round_trip (rt : Runtime) (o : PyVal) (s : string) :
  (dumps (pickle rt) o = Ok s -> loads (pickle rt) s = Ok o ->
   maybe_dill_dumps rt o = Ok s /\ maybe_dill_loads rt s = Ok o)
  /\ (forall e e',
        dumps (pickle rt) o = Raise e -> dumps (dill rt) o = Ok s ->
        loads (pickle rt) s = Raise e' -> loads (dill rt) s = Ok o ->
        maybe_dill_dumps rt o = Ok s /\ maybe_dill_loads rt s = Ok o)
  /\ (forall e e',
        dumps (pickle rt) o = Raise e -> dumps (dill rt) o = Raise e' ->
        maybe_dill_dumps rt o = Raise e')
  /\ (forall e e',
        loads (pickle rt) s = Raise e -> loads (dill rt) s = Raise e' ->
        maybe_dill_loads rt s = Raise e').
Proof.
  unfold maybe_dill_dumps, maybe_dill_loads. split; [| split; [| split]].
  - intros Hd Hl. now rewrite Hd, Hl.
  - intros e e' Hp Hd Hpl Hl. now rewrite Hp, Hd, Hpl, Hl.
  - intros e e' Hp Hd. now rewrite Hp, Hd.
  - intros e e' Hp Hd. now rewrite Hp, Hd.
Qed.

(** ** Byte strings and text *)

Lemma utf8_decode_ascii_bytes (l : list N) :
  forallb (fun b => (b <? 128)%N) l = true -> Utf8.decode_bytes l = Some l.
Proof.
  induction l as [| b l IH]; cbn [forallb Utf8.decode_bytes]; [reflexivity|].
  intros H. apply andb_true_iff in H as [Hb Hl].
  unfold Utf8.decode_seq. rewrite Hb, (IH Hl). reflexivity.
Qed.

Lemma utf8_encode_ascii (u : list N) :
  forallb (fun b => (b <? 128)%N) u = true -> Utf8.encode_bytes u = u.
Proof.
  unfold Utf8.encode_bytes.
  induction u as [| ch u IH]; cbn [forallb flat_map]; [reflexivity|].
  intros H. apply andb_true_iff in H as [Hb Hl].
  unfold Utf8.encode_char at 1. rewrite Hb, (IH Hl). reflexivity.
Qed.

(** [StrUtf8Coder] on values that are not unicode strings.  An ASCII byte
    string is encoded as itself and decoded to a unicode string that is [==]
    to it; a byte string with a byte above 127 raises [UnicodeDecodeError],
    and a value that is no string raises [AttributeError]. *)
Theorem StrUtf8Coder_byte_strings (rt : Runtime) :
  (forall s, is_ascii s = true ->
     encode rt StrUtf8Coder (PyStr s) = Ok s
     /\ exists v, decode rt StrUtf8Coder s = Ok v /\ py_eq v (PyStr s) = true)
  /\ (forall s, is_ascii s = false ->
        encode rt StrUtf8Coder (PyStr s) = Raise UnicodeDecodeError)
  /\ (forall v, (forall s, v <> PyStr s) -> (forall u, v <> PyUnicode u) ->
        encode rt StrUtf8Coder v = Raise AttributeError).
Proof.
  split; [| split].
  - intros s Hs. cbn [encode decode].
    unfold StrUtf8Coder_encode, StrUtf8Coder_decode.
    rewrite Hs. split; [reflexivity|].
    unfold Utf8.decode. rewrite (utf8_decode_ascii_bytes _ Hs).
    eexists. split; [reflexivity|]. cbn [py_eq].
    rewrite Hs. apply list_eqb_refl, N.eqb_refl.
  - intros s Hs. cbn [encode]. unfold StrUtf8Coder_encode. now rewrite Hs.
  - intros v Hs Hu. destruct v; try reflexivity.
    + now destruct (Hs s).
    + now destruct (Hu u).
Qed.

(** Text written with [ToStringCoder] is read by [StrUtf8Coder]: a unicode
    string comes back as it was, and an ASCII byte string as a unicode string
    that is [==] to it. *)
Theorem ToStringCoder_read_by_StrUtf8Coder (rt : Runtime) :
  (forall u, forallb Utf8.scalar u = true ->
     exists b, encode rt ToStringCoder (PyUnicode u) = Ok b
               /\ decode rt StrUtf8Coder b = Ok (PyUnicode u))
  /\ (forall s, is_ascii s = true ->
        exists b v, encode rt ToStringCoder (PyStr s) = Ok b
                    /\ decode rt StrUtf8Coder b = Ok v
                    /\ py_eq v (PyStr s) = true).
Proof.
  split.
  - intros u Hu. exists (Utf8.encode u). split; [reflexivity|].
    now apply StrUtf8Coder_round_trip.
  - intros s Hs. exists s, (PyUnicode (str_bytes s)). split; [reflexivity|].
    cbn [decode]. unfold StrUtf8Coder_decode, Utf8.decode.
    rewrite (utf8_decode_ascii_bytes _ Hs). split; [reflexivity|].
    cbn [py_eq]. rewrite Hs. apply list_eqb_refl, N.eqb_refl.
Qed.

(** ** Size estimates of the direct coders *)

Lemma length_string_of_list_ascii (l : list ascii) :
  String.length (string_of_list_ascii l) = List.length l.
Proof. induction l as [| a l IH]; cbn; [reflexivity | now rewrite IH]. Qed.

Lemma length_list_ascii_of_string (s : string) :
  List.length (list_ascii_of_string s) = String.length s.
Proof. induction s as [| a s IH]; cbn; [reflexivity | now rewrite IH]. Qed.

Lemma len_bytes_str (l : list N) : len (bytes_str l) = Z.of_nat (List.length l).
Proof.
  unfold len, bytes_str. now rewrite length_string_of_list_ascii, length_map.
Qed.

Lemma length_str_bytes (s : string) : List.length (str_bytes s) = String.length s.
Proof. unfold str_bytes. now rewrite length_map, length_list_ascii_of_string. Qed.

Lemma length_utf8_encode_char (ch : N) :
  (1 <= List.length (Utf8.encode_char ch) <= 4)%nat.
Proof.
  unfold Utf8.encode_char.
  destruct (ch <? 0x80)%N; [cbn; lia|].
  destruct (ch <? 0x800)%N; [cbn; lia|].
  destruct (ch <? 0x10000)%N; cbn; lia.
Qed.

Lemma length_utf8_encode_bytes (u : list N) :
  (List.length u <= List.length (Utf8.encode_bytes u) <= 4 * List.length u)%nat.
Proof.
  unfold Utf8.encode_bytes.
  induction u as [| ch u IH]; cbn [flat_map List.length]; [lia|].
  rewrite length_app. pose proof (length_utf8_encode_char ch). lia.
Qed.

(** The size that [StrUtf8Coder] estimates for a unicode string is the number
    of bytes of its UTF-8 form: at least one and at most four bytes for each
    code point, and one for each when the string is ASCII. *)
Theorem StrUtf8Coder_estimate_size_bounds (rt : Runtime) (u : list N) :
  exists n,
    estimate_size rt StrUtf8Coder (PyUnicode u) = Ok n
    /\ (Z.of_nat (List.length u) <= n <= 4 * Z.of_nat (List.length u))%Z
    /\ (forallb (fun ch => (ch <? 128)%N) u = true -> n = Z.of_nat (List.length u)).
Proof.
  exists (len (Utf8.encode u)). split; [reflexivity|].
  unfold Utf8.encode. rewrite len_bytes_str. split.
  - pose proof (length_utf8_encode_bytes u). lia.
  - intros H. now rewrite utf8_encode_ascii.
Qed.

Lemma length_b64_encode_bytes (l : list N) :
  List.length (Base64.encode_bytes l) = (4 * ((List.length l + 2) / 3))%nat.
Proof.
  induction l as [| a | a b | a b c t IH] using Base64Facts.list_ind3;
    try reflexivity.
  cbn [Base64.encode_bytes List.length]. rewrite IH.
  replace (S (S (S (List.length t))) + 2)%nat with (1 * 3 + (List.length t + 2))%nat
    by lia.
  rewrite Nat.div_add_l by discriminate. lia.
Qed.

(** The size that [Base64PickleCoder] estimates is the length of the base64
    text of the pickled value: four characters for every three bytes, the
    last group padded. *)
Theorem Base64PickleCoder_estimate_size (rt : Runtime) (v : PyVal) (p : string) :
  dumps (pickle rt) v = Ok p ->
  estimate_size rt Base64PickleCoder v = Ok (4 * ((len p + 2) / 3))%Z.
Proof.
  intros Hd. cbn [estimate_size].
  unfold Coder_estimate_size, Base64PickleCoder_encode. rewrite Hd. cbn [bind].
  f_equal. unfold len, Base64.b64encode.
  rewrite length_string_of_list_ascii, length_b64_encode_bytes, length_str_bytes.
  rewrite Nat2Z.inj_mul, Nat2Z.inj_div, Nat2Z.inj_add. reflexivity.
Qed.

(** ** What determinism depends on *)

Lemma forallb_flat_map (A B : Type) (p : B -> bool) (f : A -> list B) (l : list A) :
  forallb p (flat_map f l) = forallb (fun a => forallb p (f a)) l.
Proof.
  induction l as [| a l IH]; cbn; [reflexivity|].
  now rewrite forallb_app, IH.
Qed.

(** A coder is deterministic exactly when none of the coders that
    [is_deterministic] asks is a [PickleCoder], a [DillCoder], a
    [Base64PickleCoder] or a [ProtoCoder]. *)
Theorem is_deterministic_characterized (c : Coder) :
  is_deterministic c
  = forallb (fun k => negb (never_deterministic k)) (asked_for_determinism c).
Proof.
  induction c as [ | | | | | | v | | | u IHu l | f IHf | | t | coders IH
                 | elem IHe | elem IHe | | | w IHw ts IHts win IHwin | v IHv ];
    cbn [is_deterministic asked_for_determinism forallb never_deterministic negb andb];
    try reflexivity; try assumption.
  - rewrite forallb_flat_map.
    induction IH as [| x Hx coders _ IHcoders]; cbn [forallb]; [reflexivity|].
    now rewrite Hx, IHcoders.
  - rewrite !forallb_app, IHw, IHts, IHwin. now rewrite andb_true_r.
Qed.

(** The key coder and the value coder of a deterministic coder are
    deterministic. *)
Theorem kv_coders_of_deterministic (c k : Coder) :
  is_deterministic c = true ->
  key_coder c = Ok k \/ value_coder c = Ok k ->
  is_deterministic k = true.
Proof.
  revert k.
  induction c as [ | | | | | | v | | | u IHu l | f IHf | | t | coders IH
                 | elem IHe | elem IHe | | | w IHw ts IHts win IHwin | v IHv ];
    intros k Hd [H | H]; cbn in Hd, H; try discriminate;
    try (injection H as <-; assumption).
  - destruct coders as [| a [| b [| x tl]]]; try discriminate.
    cbn in H. injection H as <-. cbn in Hd. now apply andb_true_iff in Hd as [Hd _].
  - destruct coders as [| a [| b [| x tl]]]; try discriminate.
    cbn in H. injection H as <-. cbn in Hd.
    apply andb_true_iff in Hd as [_ Hd]. now apply andb_true_iff in Hd as [Hd _].
  - apply andb_true_iff in Hd as [Hd _]. apply IHw; [exact Hd | now left].
  - apply andb_true_iff in Hd as [Hd _]. apply IHw; [exact Hd | now right].
Qed.

(** ** The properties above, on the sample instances *)

Lemma hash_consistent_with_eq_witness :
  let a := LengthPrefixCoder (SingletonCoder (PyStr "a")) in
  let b := LengthPrefixCoder (SingletonCoder (PyUnicode [97%N])) in
  (forall v w, py_eq v w = true ->
               hash_value Fixtures.hashes v = hash_value Fixtures.hashes w)
  /\ eq_reads_other a = true
  /\ __eq__ a b = true
  /\ exists ha, __hash__ Fixtures.hashes a = Some ha
                /\ __hash__ Fixtures.hashes b = Some ha.
Proof.
  intros a b.
  assert (Hval : forall v w, py_eq v w = true ->
                   hash_value Fixtures.hashes v = hash_value Fixtures.hashes w)
    by reflexivity.
  split; [exact Hval | split; [reflexivity | split; [reflexivity |]]].
  eexists. split; [reflexivity|].
  exact (hash_consistent_with_eq Fixtures.hashes a b _ Hval eq_refl eq_refl eq_refl).
Defined.

Lemma as_cloud_object_flags_witness :
  exists doc,
    as_cloud_object Sample.rt (IterableCoder (TupleCoder [VarIntCoder; BytesCoder]))
    = Ok doc
    /\ cloud_is_pair_like doc = None
    /\ cloud_is_stream_like doc = Some true
    /\ cloud_is_wrapper doc = None.
Proof.
  eexists. split; [reflexivity|].
  exact (as_cloud_object_flags Sample.rt
           (IterableCoder (TupleCoder [VarIntCoder; BytesCoder])) _ eq_refl).
Defined.

Lemma as_cloud_object_components_witness :
  exists doc encodings,
    lists_components (TupleCoder [VarIntCoder; BytesCoder; VarIntCoder]) = true
    /\ as_cloud_object Fixtures.rt (TupleCoder [VarIntCoder; BytesCoder; VarIntCoder])
       = Ok doc
    /\ cloud_component_encodings doc = Some encodings
    /\ Forall2 (fun k d => as_cloud_object Fixtures.rt k = Ok d)
         (_get_component_coders (TupleCoder [VarIntCoder; BytesCoder; VarIntCoder]))
         encodings.
Proof.
  destruct (as_cloud_object_components Fixtures.rt
              (TupleCoder [VarIntCoder; BytesCoder; VarIntCoder]) _ eq_refl eq_refl)
    as (encodings & He & Hall).
  eexists. exists encodings. split; [reflexivity | split; [reflexivity |]].
  split; [exact He | exact Hall].
Defined.

Lemma as_cloud_object_fails_with_pickler_witness :
  (as_cloud_object Sample.rt (TupleCoder [VarIntCoder; FloatCoder])
   = Raise (OtherError "PicklingError")
   /\ exists k, In k (descendants (TupleCoder [VarIntCoder; FloatCoder]))
                /\ pickler_dumps (pickler Sample.rt) k
                   = Raise (OtherError "PicklingError"))
  /\ exists doc,
       as_cloud_object Fixtures.rt
         (WindowedValueCoder__init__ (TupleCoder [VarIntCoder; FloatCoder]) None)
       = Ok doc.
Proof.
  split.
  - split; [reflexivity|].
    exact (proj1 (as_cloud_object_fails_with_pickler Sample.rt
                    (TupleCoder [VarIntCoder; FloatCoder])) _ eq_refl).
  - apply (proj2 (as_cloud_object_fails_with_pickler Fixtures.rt
                    (WindowedValueCoder__init__ (TupleCoder [VarIntCoder; FloatCoder])
                       None))).
    intros k _. exists (class_name k). reflexivity.
Defined.

Lemma cloud_type_deserializes_witness :
  (exists doc,
      as_cloud_object Sample.rt VarIntCoder = Ok doc
      /\ deserialize_coder Sample.rt (cloud_type doc) = Ok (ObjCoder VarIntCoder))
  /\ exists doc,
       as_cloud_object Sample.rt (TupleCoder [VarIntCoder; BytesCoder]) = Ok doc
       /\ deserialize_coder Sample.rt (cloud_type doc) = Raise IndexError.
Proof.
  split.
  - eexists. split; [reflexivity|].
    destruct (cloud_type_deserializes Sample.rt VarIntCoder _ eq_refl)
      as (blob & Hd & _ & Hl).
    apply Hl. injection Hd as <-. reflexivity.
  - eexists. split; [reflexivity|].
    exact (cloud_type_deserializes Sample.rt (TupleCoder [VarIntCoder; BytesCoder])
             _ eq_refl).
Defined.

Lemma from_runner_api_to_runner_api_witness :
  (forall m, Unpack Fixtures.envelope (pack_Any Fixtures.envelope m) = Some m)
  /\ pickler_dumps (pickler Sample.rt) VarIntCoder = Ok "i$v"%string
  /\ pickler_loads (pickler Sample.rt) "i$v" = Ok (ObjCoder VarIntCoder)
  /\ exists proto c',
       to_runner_api Sample.rt Fixtures.envelope VarIntCoder = Ok proto
       /\ urn (function_spec (sdk_function_spec proto))
          = PICKLED_CODER Fixtures.envelope
       /\ from_runner_api Sample.rt Fixtures.envelope proto = Ok (ObjCoder c')
       /\ __eq__ c' VarIntCoder = true.
Proof.
  assert (Hany : forall m,
             Unpack Fixtures.envelope (pack_Any Fixtures.envelope m) = Some m)
    by (intros [v]; reflexivity).
  split; [exact Hany | split; [reflexivity | split; [reflexivity |]]].
  exact (proj1 (from_runner_api_to_runner_api Sample.rt Fixtures.envelope
                  VarIntCoder "i$v" Hany eq_refl eq_refl)).
Defined.

Lemma maybe_dill_round_trip_witness :
  (maybe_dill_dumps Fixtures.rt PyNone = Ok "N."%string
   /\ maybe_dill_loads Fixtures.rt "N." = Ok PyNone)
  /\ (dumps (pickle Fixtures.rt) (PyTuple []) = Raise (OtherError "PicklingError")
      /\ maybe_dill_dumps Fixtures.rt (PyTuple []) = Ok "T"%string
      /\ maybe_dill_loads Fixtures.rt "T" = Ok (PyTuple []))
  /\ maybe_dill_dumps Fixtures.rt (PyInt 1) = Raise (OtherError "PicklingError").
Proof.
  split; [| split].
  - exact (proj1 (maybe_dill_round_trip Fixtures.rt PyNone "N.") eq_refl eq_refl).
  - split; [reflexivity|].
    exact (proj1 (proj2 (maybe_dill_round_trip Fixtures.rt (PyTuple []) "T"))
             _ _ eq_refl eq_refl eq_refl eq_refl).
  - exact (proj1 (proj2 (proj2 (maybe_dill_round_trip Fixtures.rt (PyInt 1) "")))
             _ _ eq_refl eq_refl).
Defined.

Lemma StrUtf8Coder_byte_strings_witness :
  (is_ascii "abc" = true
   /\ encode Sample.rt StrUtf8Coder (PyStr "abc") = Ok "abc"%string
   /\ exists v, decode Sample.rt StrUtf8Coder "abc" = Ok v
                /\ py_eq v (PyStr "abc") = true)
  /\ (is_ascii (bytes_str [233%N]) = false
      /\ encode Sample.rt StrUtf8Coder (PyStr (bytes_str [233%N]))
         = Raise UnicodeDecodeError)
  /\ encode Sample.rt StrUtf8Coder (PyInt 5) = Raise AttributeError.
Proof.
  pose proof (StrUtf8Coder_byte_strings Sample.rt) as (Ha & Hn & Ho).
  split; [| split].
  - split; [reflexivity | exact (Ha "abc"%string eq_refl)].
  - split; [reflexivity | exact (Hn (bytes_str [233%N]) eq_refl)].
  - apply Ho; discriminate.
Defined.

Lemma ToStringCoder_read_by_StrUtf8Coder_witness :
  (forallb Utf8.scalar [104; 233; 8364]%N = true
   /\ exists b, encode Sample.rt ToStringCoder (PyUnicode [104; 233; 8364]%N) = Ok b
                /\ decode Sample.rt StrUtf8Coder b
                   = Ok (PyUnicode [104; 233; 8364]%N))
  /\ (is_ascii "abc" = true
      /\ exists b v, encode Sample.rt ToStringCoder (PyStr "abc") = Ok b
                     /\ decode Sample.rt StrUtf8Coder b = Ok v
                     /\ py_eq v (PyStr "abc") = true).
Proof.
  pose proof (ToStringCoder_read_by_StrUtf8Coder Sample.rt) as (Hu & Hs).
  split.
  - split; [reflexivity | exact (Hu [104; 233; 8364]%N eq_refl)].
  - split; [reflexivity | exact (Hs "abc"%string eq_refl)].
Defined.

Lemma Base64PickleCoder_estimate_size_witness :
  dumps (pickle Sample.rt) (PyStr "any carnal pleas") = Ok "Sany carnal pleas"%string
  /\ estimate_size Sample.rt Base64PickleCoder (PyStr "any carnal pleas") = Ok 24%Z.
Proof.
  split; [reflexivity|].
  exact (Base64PickleCoder_estimate_size Sample.rt (PyStr "any carnal pleas")
           "Sany carnal pleas" eq_refl).
Defined.

Lemma kv_coders_of_deterministic_witness :
  is_deterministic
    (WindowedValueCoder__init__ (TupleCoder [VarIntCoder; BytesCoder])
       (Some IntervalWindowCoder)) = true
  /\ key_coder
       (WindowedValueCoder__init__ (TupleCoder [VarIntCoder; BytesCoder])
          (Some IntervalWindowCoder)) = Ok VarIntCoder
  /\ is_deterministic VarIntCoder = true.
Proof.
  split; [reflexivity | split; [reflexivity |]].
  exact (kv_coders_of_deterministic
           (WindowedValueCoder__init__ (TupleCoder [VarIntCoder; BytesCoder])
              (Some IntervalWindowCoder))
           VarIntCoder eq_refl (or_introl eq_refl)).
Defined.

(** ** Descriptions are read in one way *)

(** A description tells the class name and the pickled form of the coder it
    was made from: two coders with the same description have the same class
    name and the same pickled form. *)
Theorem description_unambiguous (rt : Runtime) (a b : Coder) (description : string) :
  serialize_coder rt a = Ok description ->
  serialize_coder rt b = Ok description ->
  class_name a = class_name b
  /\ pickler_dumps (pickler rt) a = pickler_dumps (pickler rt) b.
Proof.
  intros Ha Hb.
  apply serialize_coder_ok in Ha as (blob & Hda & ->).
  apply serialize_coder_ok in Hb as (blob' & Hdb & Hd).
  apply (f_equal (split1 "$")) in Hd.
  change (class_name a ++ "$" ++ blob)%string
    with (class_name a ++ String "$" blob)%string in Hd.
  change (class_name b ++ "$" ++ blob')%string
    with (class_name b ++ String "$" blob')%string in Hd.
  rewrite !split1_first in Hd by apply class_name_no_dollar.
  injection Hd as Hn Hblob. split; [exact Hn | congruence].
Qed.

Lemma description_unambiguous_witness :
  serialize_coder Fixtures.rt (SingletonCoder PyNone) = Ok "SingletonCoder$SingletonCoder"%string
  /\ serialize_coder Fixtures.rt (SingletonCoder (PyInt 1))
     = Ok "SingletonCoder$SingletonCoder"%string
  /\ class_name (SingletonCoder PyNone) = class_name (SingletonCoder (PyInt 1))
  /\ pickler_dumps (pickler Fixtures.rt) (SingletonCoder PyNone)
     = pickler_dumps (pickler Fixtures.rt) (SingletonCoder (PyInt 1)).
Proof.
  split; [reflexivity | split; [reflexivity |]].
  exact (description_unambiguous Fixtures.rt (SingletonCoder PyNone)
           (SingletonCoder (PyInt 1)) _ eq_refl eq_refl).
Defined.
